(** * send_btc: batch P2WPKH payout, a model of [send_btc.py] and its properties

  The program reads a recipient sheet, fetches the spendable outputs of one
  funding address, assembles a single segwit transaction, computes fee and
  change, signs, verifies, asks for confirmation and posts the raw
  transaction.

  The embedding follows the Python text function by function.  What the
  program takes from outside (the bitcoin library, the HTTP provider, the
  terminal, the interpreter's text-to-integer conversion) is a variable of
  the sections below; logging is left out.  The fee rate is a Python
  [float]: it is modelled with the binary64 instance of [SpecFloat]. *)

From Stdlib Require Import ZArith List String Ascii Bool Lia QArith Qround.
From Stdlib Require Import Floats.SpecFloat.
Import ListNotations.

Local Open Scope string_scope.
Local Open Scope Z_scope.

(** ** Python strings *)

Module PyStr.

(** [s.startswith(p)] *)
Definition startswith (s p : string) : bool := String.prefix p s.

(** [s.startswith((p1, p2, ...))] *)
Definition startswith_any (s : string) (ps : list string) : bool :=
  existsb (startswith s) ps.

(** A string stands for the UTF-8 bytes of the Python [str].  The characters
    [str.isspace] holds for, and [str.strip] removes, are U+0009-000D,
    U+001C-0020, U+0085, U+00A0, U+1680, U+2000-200A, U+2028, U+2029, U+202F,
    U+205F and U+3000; in UTF-8 they take one, two or three bytes. *)

(** [c.isspace()] for a character of one byte. *)
Definition isspace (c : ascii) : bool :=
  let n := nat_of_ascii c in
  ((9 <=? n)%nat && (n <=? 13)%nat) || ((28 <=? n)%nat && (n <=? 32)%nat).

(** The third byte of a white-space character that starts E2 80. *)
Definition general_punctuation_space (n : nat) : bool :=
  ((128 <=? n)%nat && (n <=? 138)%nat)
  || (n =? 168)%nat || (n =? 169)%nat || (n =? 175)%nat.

(** The bytes [a], [b], [c] in this order are a white-space character of
    three bytes. *)
Definition space3 (a b c : nat) : bool :=
  ((a =? 225)%nat && (b =? 154)%nat && (c =? 128)%nat)
  || ((a =? 226)%nat && (b =? 128)%nat && general_punctuation_space c)
  || ((a =? 226)%nat && (b =? 129)%nat && (c =? 159)%nat)
  || ((a =? 227)%nat && (b =? 128)%nat && (c =? 128)%nat).

(** The bytes [a], [b] in this order are a white-space character of two
    bytes. *)
Definition space2 (a b : nat) : bool :=
  (a =? 194)%nat && ((b =? 133)%nat || (b =? 160)%nat).

(** Number of bytes of the white-space character [bs] starts with; 0 when it
    starts with none. *)
Definition space_width (bs : list ascii) : nat :=
  match bs with
  | a :: rest =>
      if isspace a then 1%nat
      else
        match rest with
        | b :: rest' =>
            if space2 (nat_of_ascii a) (nat_of_ascii b) then 2%nat
            else
              match rest' with
              | c :: _ =>
                  if space3 (nat_of_ascii a) (nat_of_ascii b) (nat_of_ascii c)
                  then 3%nat else 0%nat
              | [] => 0%nat
              end
        | [] => 0%nat
        end
  | [] => 0%nat
  end.

(** The same, for the white-space character [bs] ends with, [rs] being the
    bytes of [bs] from the last to the first. *)
Definition space_width_back (rs : list ascii) : nat :=
  match rs with
  | c :: rest =>
      if isspace c then 1%nat
      else
        match rest with
        | b :: rest' =>
            if space2 (nat_of_ascii b) (nat_of_ascii c) then 2%nat
            else
              match rest' with
              | a :: _ =>
                  if space3 (nat_of_ascii a) (nat_of_ascii b) (nat_of_ascii c)
                  then 3%nat else 0%nat
              | [] => 0%nat
              end
        | [] => 0%nat
        end
  | [] => 0%nat
  end.

(** Remove white-space characters from the head, as [width] finds them. *)
Fixpoint strip_head (width : list ascii -> nat) (fuel : nat) (bs : list ascii)
  : list ascii :=
  match fuel with
  | O => bs
  | S fuel' =>
      match width bs with
      | O => bs
      | w => strip_head width fuel' (skipn w bs)
      end
  end.

Definition lstrip (s : string) : string :=
  let bs := list_ascii_of_string s in
  string_of_list_ascii (strip_head space_width (List.length bs) bs).

Definition rstrip (s : string) : string :=
  let rs := List.rev (list_ascii_of_string s) in
  string_of_list_ascii
    (List.rev (strip_head space_width_back (List.length rs) rs)).

(** [s.strip()] *)
Definition strip (s : string) : string := rstrip (lstrip s).

Definition upper_char (c : ascii) : ascii :=
  let n := nat_of_ascii c in
  if ((97 <=? n)%nat && (n <=? 122)%nat)%bool then ascii_of_nat (n - 32) else c.

(** [s.upper()] on the code points below 128. *)
Fixpoint upper (s : string) : string :=
  match s with
  | String c s' => String (upper_char c) (upper s')
  | EmptyString => EmptyString
  end.

End PyStr.

(** ** Python numbers *)

Module PyNum.

(** A Python [float] is an IEEE-754 binary64. *)
Definition prec : Z := 53.
Definition emax : Z := 1024.

(** Why a conversion raised. *)
Inductive conv_error : Type :=
| ValueError      (* int(nan), int of a text that is no integer *)
| OverflowError.  (* int(inf), float(n) for n out of range *)

(** [float(n)] for an [int]: nearest binary64, ties to even; raises when the
    integer is out of range. *)
Definition float_of_int (n : Z) : conv_error + spec_float :=
  match binary_normalize prec emax n 0 false with
  | S754_infinity _ => inl OverflowError
  | f => inr f
  end.

(** [x * y] on two floats. *)
Definition float_mul (x y : spec_float) : spec_float := SFmul prec emax x y.

(** [n * y] with [n] an [int] and [y] a [float]: the integer is converted
    first. *)
Definition int_mul_float (n : Z) (y : spec_float) : conv_error + spec_float :=
  match float_of_int n with
  | inl e => inl e
  | inr x => inr (float_mul x y)
  end.

(** [int(x)] for a float: truncation toward zero; raises on nan and on the
    infinities. *)
Definition int_of_float (x : spec_float) : conv_error + Z :=
  match x with
  | S754_nan => inl ValueError
  | S754_infinity _ => inl OverflowError
  | S754_zero _ => inr 0
  | S754_finite s m e => inr (cond_Zopp s (Z.shiftl (Zpos m) e))
  end.

(** The rational a finite float denotes (0 for the others). *)
Definition Q_of_float (x : spec_float) : Q :=
  match x with
  | S754_finite s m e =>
      match e with
      | Zneg p => Qmake (cond_Zopp s (Zpos m)) (2 ^ p)%positive
      | _ => inject_Z (cond_Zopp s (Zpos m * 2 ^ e))
      end
  | _ => 0%Q
  end.

Definition is_finite (x : spec_float) : bool :=
  match x with
  | S754_zero _ | S754_finite _ _ _ => true
  | _ => false
  end.

(** Strictly positive and finite. *)
Definition is_positive (x : spec_float) : bool :=
  match x with
  | S754_finite false _ _ => true
  | _ => false
  end.

End PyNum.

(** ** Errors the program raises

  The program raises [ValueError] with a message at each site and lets
  library errors through; the model names the sites. *)

Inductive amount_fault : Type :=
| NotPositive (amount : Z)      (* l.93 *)
| BelowDust (amount : Z)        (* l.95 *)
| NotAnInteger.                 (* int() raised ValueError, l.91 *)

Inductive recipient_fault : Type :=
| NotSegwitAddress (address : string)   (* l.87 *)
| AmountFormat (cause : amount_fault)   (* l.97 *)
| AmountProcessing.                     (* l.99 *)

Inductive error : Type :=
| MissingColumns                                   (* l.80 *)
| InvalidRecipient (index : Z) (reason : recipient_fault)
| ColumnConversion                                 (* astype raised, l.102 *)
| InvalidKeyFormat                                 (* l.40 *)
| InvalidKeyEncoding                               (* Key(...) raised, l.44 *)
| UnexpectedAddressType                            (* l.56, l.157 *)
| ProviderError (status : Z)                       (* l.138 *)
| NoSpendableFunds (min_utxo : Z)                  (* l.162 *)
| MalformedUtxo                                    (* l.172 *)
| InputRejected (prev_txid : string) (output_n : Z)   (* t.add_input raised, l.175 *)
| OutputRejected (value : Z) (address : string)    (* t.add_output raised, l.193, l.203 *)
| UnsupportedOutputScript (address : string)       (* l.191 *)
| FeeConversion (e : PyNum.conv_error)             (* l.198 *)
| SigningFailure (input_index : nat)               (* l.207 *)
| VerificationFailure                              (* l.211 *)
| BroadcastFailed (text : string)                  (* l.242 *)
| RequestFailed                                    (* requests.get/post raised *)
| AmountConversion (e : PyNum.conv_error)          (* l.272 *)
| NonPositiveAmount (amount : Z).                  (* l.274 *)

Inductive result (A : Type) : Type :=
| Ok (a : A)
| Err (e : error).
Arguments Ok {A} a.
Arguments Err {A} e.

Definition is_ok {A} (r : result A) : bool :=
  match r with Ok _ => true | Err _ => false end.

(** ** The recipient sheet ([read_excel_data]) *)

(** The P2WPKH prefix and the smallest amount the sheet may carry. *)
Definition P2WPKH_PREFIX : string := "bc1q".
Definition DUST_LIMIT : Z := 546.

(** A cell of the [amount] column as pandas hands it over. *)
Inductive cell : Type :=
| CInt (n : Z)
| CFloat (x : spec_float)
| CText (s : string).

(** A row: [str(row['address'])] and [row['amount']]. *)
Record row : Type := mkRow { row_address : string; row_amount : cell }.

Record dataframe : Type := mkFrame { columns : list string; rows : list row }.

Section Sheet.

(** [int(s)] for a text [s] is the interpreter's. *)
Variable int_of_text : string -> PyNum.conv_error + Z.

(** [column.astype(int)] is pandas': the converted column, or [None] when
    the conversion raises. *)
Variable astype_int : list cell -> option (list cell).

(** [int(row['amount'])] *)
Definition py_int (c : cell) : PyNum.conv_error + Z :=
  match c with
  | CInt n => inr n
  | CFloat x => PyNum.int_of_float x
  | CText s => int_of_text s
  end.

(** The [try] block of l.90-99: every [ValueError] raised inside it,
    also the two the block raises itself, is caught and raised again as the
    format error; any other exception as the processing error. *)
Definition check_amount (c : cell) : recipient_fault + Z :=
  match py_int c with
  | inl PyNum.ValueError => inl (AmountFormat NotAnInteger)
  | inl PyNum.OverflowError => inl AmountProcessing
  | inr amount =>
      if amount <=? 0 then inl (AmountFormat (NotPositive amount))
      else if amount <? DUST_LIMIT then inl (AmountFormat (BelowDust amount))
      else inr amount
  end.

(** The body of the loop of l.83-99 for one row. *)
Definition check_row (r : row) : recipient_fault + Z :=
  let address := PyStr.strip (row_address r) in
  if negb (PyStr.startswith address P2WPKH_PREFIX)
  then inl (NotSegwitAddress address)
  else check_amount (row_amount r).

(** The loop of l.83-99: the first faulty row raises. *)
Fixpoint check_rows (idx : Z) (rs : list row) : result unit :=
  match rs with
  | [] => Ok tt
  | r :: rs' =>
      match check_row r with
      | inl why => Err (InvalidRecipient idx why)
      | inr _ => check_rows (idx + 1) rs'
      end
  end.

(** [df['amount'] = ...] of l.102: the column is replaced, row by row. *)
Definition set_amounts (rs : list row) (amounts : list cell) : list row :=
  map (fun rc => mkRow (row_address (fst rc)) (snd rc)) (combine rs amounts).

Definition has_column (df : dataframe) (name : string) : bool :=
  existsb (String.eqb name) (columns df).

(** An integer column has no missing value, so the test of l.103-104 never
    raises. *)
Definition read_excel_data (df : dataframe) : result dataframe :=
  if negb (has_column df "address") || negb (has_column df "amount")
  then Err MissingColumns
  else
    match check_rows 0 (rows df) with
    | Err e => Err e
    | Ok _ =>
        match astype_int (map row_amount (rows df)) with
        | Some amounts => Ok (mkFrame (columns df) (set_amounts (rows df) amounts))
        | None => Err ColumnConversion
        end
    end.

(** A row the loop of l.83-99 lets through: the stripped address carries the
    prefix and [int(...)] of the amount is an integer of at least 546. *)
Definition valid_row (r : row) : Prop :=
  PyStr.startswith (PyStr.strip (row_address r)) P2WPKH_PREFIX = true /\
  exists n, py_int (row_amount r) = inr n /\ 0 < n /\ 546 <= n.

End Sheet.

(** ** Outside calls and the run monad

    A run yields a result or an error, together with the outside calls it
    made, in order.  A raised error keeps the calls made before it. *)

Inductive event : Type :=
| KeyDecode (wif : string)          (* Key(wif_key, network='bitcoin') *)
| HttpGet (url : string)            (* requests.get(url) *)
| Prompt                            (* input(...) *)
| HttpPost (url body : string).     (* requests.post(url, data=body, ...) *)

Definition is_post (e : event) : bool :=
  match e with HttpPost _ _ => true | _ => false end.

(** No broadcast request among the calls. *)
Definition no_broadcast (tr : list event) : Prop := existsb is_post tr = false.

Definition M (A : Type) : Type := (result A * list event)%type.

Definition ret {A} (a : A) : M A := (Ok a, []).
Definition raise {A} (e : error) : M A := (Err e, []).
Definition call (ev : event) : M unit := (Ok tt, [ev]).
Definition lift {A} (r : result A) : M A := (r, []).

Definition bind {A B} (m : M A) (k : A -> M B) : M B :=
  match m with
  | (Ok a, tr) => let (r, tr') := k a in (r, (tr ++ tr')%list)
  | (Err e, tr) => (Err e, tr)
  end.

Definition bindR {A B} (r : result A) (k : A -> result B) : result B :=
  match r with Ok a => k a | Err e => Err e end.

Declare Scope run_scope.
Delimit Scope run_scope with run.
Notation "x <- m ;; k" := (bind m (fun x => k))
  (at level 61, m at next level, right associativity) : run_scope.
Notation "' p <- m ;; k" := (bind m (fun x => let 'p := x in k))
  (at level 61, p pattern, m at next level, right associativity) : run_scope.
Notation "x <~ r ;; k" := (bindR r (fun x => k))
  (at level 61, r at next level, right associativity) : run_scope.
Notation "' p <~ r ;; k" := (bindR r (fun x => let 'p := x in k))
  (at level 61, p pattern, r at next level, right associativity) : run_scope.

Definition outcome {A} (m : M A) : result A := fst m.
Definition calls {A} (m : M A) : list event := snd m.

(** ** Data of the pipeline *)

(** A JSON value where the program expects an integer (l.171).  [JInt] is
    what passes [isinstance(_, int)]: a JSON integer, and also a JSON boolean,
    which Python counts as the integer 0 or 1. *)
Inductive json : Type :=
| JInt (n : Z)
| JOther.

(** An entry of the provider's answer; [status] is only logged. *)
Record utxo : Type := mkUtxo { txid : string; vout : json; value : Z }.

(** A prepared recipient, as [main] builds it (l.275). *)
Record recipient : Type := mkRecipient { rec_address : string; rec_amount : Z }.

(** The library's transaction object, reduced to what the program puts in. *)
Record TxIn : Type :=
  mkTxIn { prev_txid : string; output_n : Z; in_value : Z; in_address : string }.
Record TxOut : Type := mkTxOut { out_value : Z; out_address : string }.
Record Transaction : Type := mkTx { inputs : list TxIn; outputs : list TxOut }.

(** [Transaction(witness_type='segwit', network='bitcoin')] *)
Definition new_transaction : Transaction := mkTx [] [].

Definition sum_inputs (t : Transaction) : Z :=
  fold_right Z.add 0 (map in_value (inputs t)).
Definition sum_outputs (t : Transaction) : Z :=
  fold_right Z.add 0 (map out_value (outputs t)).

(** What the assembly of l.161-203 leaves behind. *)
Record draft : Type := mkDraft {
  tx : Transaction;
  total_input : Z;
  total_output : Z;
  tx_size : Z;
  fee : Z;
  change : Z }.

(** The bitcoin library, as far as the program calls it.  [t.add_input] and
    [t.add_output] either append to the transaction or raise (an output index
    outside 32 bits, an address that does not decode, ...): which of the two
    is the library's verdict on the arguments. *)
Record BitcoinLib (key : Type) : Type := mkLib {
  Key : string -> option key;           (* None: the constructor raised *)
  address_of : key -> string;           (* bech32 of hash160 of the public key *)
  raw_hex : Transaction -> string;      (* t.raw_hex() *)
  sign : Transaction -> key -> nat -> option Transaction;  (* t.sign(key, i) *)
  verify : Transaction -> bool;         (* t.verify() *)
  accepts_input : string -> Z -> Z -> string -> bool;
                                        (* txid, vout, value, address *)
  accepts_output : Z -> string -> bool }.   (* value, address *)
Arguments Key {key}.
Arguments address_of {key}.
Arguments raw_hex {key}.
Arguments sign {key}.
Arguments verify {key}.
Arguments accepts_input {key}.
Arguments accepts_output {key}.

(** [t.add_input(prev, n, value=v, address=addr, script_type='p2wpkh')] *)
Definition add_input {key : Type} (lib : BitcoinLib key) (t : Transaction)
  (prev : string) (n v : Z) (addr : string) : result Transaction :=
  if accepts_input lib prev n v addr
  then Ok (mkTx (inputs t ++ [mkTxIn prev n v addr])%list (outputs t))
  else Err (InputRejected prev n).

(** [t.add_output(v, addr)] *)
Definition add_output {key : Type} (lib : BitcoinLib key) (t : Transaction)
  (v : Z) (addr : string) : result Transaction :=
  if accepts_output lib v addr
  then Ok (mkTx (inputs t) (outputs t ++ [mkTxOut v addr])%list)
  else Err (OutputRejected v addr).

(** The provider and the terminal.  [None]: the request itself raised. *)
Record World : Type := mkWorld {
  http_get : string -> option (Z * list utxo);   (* status code, parsed body *)
  http_post : string -> string -> option (Z * string);  (* status code, text *)
  answer : string }.                              (* what input(...) returns *)

Definition UTXO_URL (address : string) : string :=
  "https://mempool.space/api/address/" ++ address ++ "/utxo".
Definition BROADCAST_URL : string := "https://mempool.space/api/tx".

Section Pipeline.

Context {key : Type} (lib : BitcoinLib key) (world : World).

Local Open Scope run_scope.

(** *** [create_wallet_from_wif], l.31-68 *)

Definition decode_key (wif_key : string) : M key :=
  _ <- call (KeyDecode wif_key) ;;
  match Key lib wif_key with
  | Some k => ret k
  | None => raise InvalidKeyEncoding
  end.

Definition create_wallet_from_wif (wif_key : string) : M (key * string) :=
  if negb (PyStr.startswith_any wif_key ["K"; "L"; "5"])
  then raise InvalidKeyFormat
  else
    k <- decode_key wif_key ;;
    let address := address_of lib k in
    if negb (PyStr.startswith address P2WPKH_PREFIX)
    then raise UnexpectedAddressType
    else ret (k, address).

(** *** [get_utxos_from_api], l.112-138 *)

Definition get_utxos_from_api (address : string) (min_utxo : Z) : M (list utxo) :=
  let url := UTXO_URL address in
  _ <- call (HttpGet url) ;;
  match http_get world url with
  | None => raise RequestFailed
  | Some (status_code, utxos) =>
      if status_code =? 200
      then ret (filter (fun u => value u >=? min_utxo) utxos)
      else raise (ProviderError status_code)
  end.

(** *** [send_batch_transaction], l.140-246 *)

(** The input loop, l.168-182. *)
Fixpoint add_inputs (wallet_address : string) (utxos : list utxo)
  (t : Transaction) (total : Z) : result (Transaction * Z) :=
  match utxos with
  | [] => Ok (t, total)
  | u :: rest =>
      match vout u with
      | JInt n =>
          t' <~ add_input lib t (txid u) n (value u) wallet_address ;;
          add_inputs wallet_address rest t' (total + value u)
      | JOther => Err MalformedUtxo
      end
  end.

(** The output loop, l.185-194.  The records come from [main] with integer
    amounts, on which [int(...)] of l.187 changes nothing. *)
Fixpoint add_outputs (records : list recipient) (t : Transaction) (total : Z)
  : result (Transaction * Z) :=
  match records with
  | [] => Ok (t, total)
  | record :: rest =>
      let amount := rec_amount record in
      let address := rec_address record in
      if negb (PyStr.startswith address P2WPKH_PREFIX)
      then Err (UnsupportedOutputScript address)
      else
        t' <~ add_output lib t amount address ;;
        add_outputs rest t' (total + amount)
  end.

(** [int(tx_size * fee_rate)], l.198. *)
Definition compute_fee (size : Z) (fee_rate : spec_float) : result Z :=
  match PyNum.int_mul_float size fee_rate with
  | inl e => Err (FeeConversion e)
  | inr product =>
      match PyNum.int_of_float product with
      | inl e => Err (FeeConversion e)
      | inr n => Ok n
      end
  end.

(** Assembly: l.161-203. *)
Definition build (wallet_address : string) (utxos : list utxo)
  (records : list recipient) (fee_rate : spec_float) (min_utxo : Z)
  : result draft :=
  match utxos with
  | [] => Err (NoSpendableFunds min_utxo)
  | _ =>
      '(t, total_input) <~ add_inputs wallet_address utxos new_transaction 0 ;;
      '(t, total_output) <~ add_outputs records t 0 ;;
      let size := Z.of_nat (String.length (raw_hex lib t)) / 2 in
      fee <~ compute_fee size fee_rate ;;
      let change := total_input - total_output - fee in
      t <~ (if change >? 0 then add_output lib t change wallet_address else Ok t) ;;
      Ok (mkDraft t total_input total_output size fee change)
  end.

(** The signing loop, l.206-207: one call per fetched output, by index. *)
Fixpoint sign_from (k : key) (i : nat) (utxos : list utxo) (t : Transaction)
  : result Transaction :=
  match utxos with
  | [] => Ok t
  | _ :: rest =>
      match sign lib t k i with
      | Some t' => sign_from k (S i) rest t'
      | None => Err (SigningFailure i)
      end
  end.

(** l.150-207: address, fetch, assembly, signatures. *)
Definition assemble_and_sign (k : key) (records : list recipient)
  (fee_rate : spec_float) (min_utxo : Z) : M (draft * Transaction) :=
  let wallet_address := address_of lib k in
  if negb (PyStr.startswith wallet_address P2WPKH_PREFIX)
  then raise UnexpectedAddressType
  else
    utxos <- get_utxos_from_api wallet_address min_utxo ;;
    d <- lift (build wallet_address utxos records fee_rate min_utxo) ;;
    t <- lift (sign_from k 0 utxos (tx d)) ;;
    ret (d, t).

(** l.209-242: verification, confirmation, broadcast.  The result is the
    transaction id, or [None] when the operator declines. *)
Definition verify_and_broadcast (t : Transaction) : M (option string) :=
  if negb (verify lib t)
  then raise VerificationFailure
  else
    let tx_hex := raw_hex lib t in
    _ <- call Prompt ;;
    let confirm := answer world in
    if negb (PyStr.upper confirm =? "Y")%string
    then ret None
    else
      _ <- call (HttpPost BROADCAST_URL tx_hex) ;;
      match http_post world BROADCAST_URL tx_hex with
      | None => raise RequestFailed
      | Some (status_code, text) =>
          if status_code =? 200 then ret (Some text)
          else raise (BroadcastFailed text)
      end.

Definition send_batch_transaction (k : key) (records : list recipient)
  (fee_rate : spec_float) (min_utxo : Z) : M (option string) :=
  '(_, t) <- assemble_and_sign k records fee_rate min_utxo ;;
  verify_and_broadcast t.

End Pipeline.

(** *** [main], l.248-287 *)

(** [config.json] once loaded: the sheet stands for the file at
    [excel_path], [fee_rate] is taken after [float(...)] and [min_utxo]
    after [int(...)]. *)
Record config : Type := mkConfig {
  wif_key : string;
  excel : dataframe;
  fee_rate : spec_float;
  min_utxo : Z }.

Section Main.

Variable int_of_text : string -> PyNum.conv_error + Z.
Variable astype_int : list cell -> option (list cell).
Context {key : Type} (lib : BitcoinLib key) (world : World).

Local Open Scope run_scope.

(** The loop of l.268-279. *)
Fixpoint prepare_recipients (rs : list row) : result (list recipient) :=
  match rs with
  | [] => Ok []
  | r :: rest =>
      let address := PyStr.strip (row_address r) in
      match py_int int_of_text (row_amount r) with
      | inl e => Err (AmountConversion e)
      | inr amount_satoshi =>
          if amount_satoshi <=? 0 then Err (NonPositiveAmount amount_satoshi)
          else
            recipients <~ prepare_recipients rest ;;
            Ok (mkRecipient address amount_satoshi :: recipients)
      end
  end.

Definition main (cfg : config) : M (option string) :=
  '(k, _) <- create_wallet_from_wif lib (wif_key cfg) ;;
  df <- lift (read_excel_data int_of_text astype_int (excel cfg)) ;;
  recipients <- lift (prepare_recipients (rows df)) ;;
  send_batch_transaction lib world k recipients (fee_rate cfg) (min_utxo cfg).

End Main.

(** ** A deterministic stand-in for the library and the provider

    Used to run the model on concrete inputs: the serialisation is a string
    of zeros of the usual size of a P2WPKH transaction (10 bytes, 68 per
    input, 31 per output), every key decodes to the one key, signing leaves
    the transaction as it is, every input and every output is taken. *)

Module Fixture.

Definition funding_address : string := "bc1qfunding".

Fixpoint zeros (n : nat) : string :=
  match n with
  | O => EmptyString
  | S n' => String "0"%char (zeros n')
  end.

Definition size_of (t : Transaction) : nat :=
  (10 + 68 * List.length (inputs t) + 31 * List.length (outputs t))%nat.

Definition lib (verdict : bool) : BitcoinLib unit :=
  mkLib unit
    (fun _ => Some tt)
    (fun _ => funding_address)
    (fun t => zeros (2 * size_of t))
    (fun t _ _ => Some t)
    (fun _ => verdict)
    (fun _ _ _ _ => true)
    (fun _ _ => true).

(** A stricter stand-in: an input is taken when its transaction id has 64
    characters and its output index fits 32 bits, an output when its value is
    not negative and its address has the 42 characters of a P2WPKH address. *)
Definition strict_lib : BitcoinLib unit :=
  mkLib unit
    (fun _ => Some tt)
    (fun _ => funding_address)
    (fun t => zeros (2 * size_of t))
    (fun t _ _ => Some t)
    (fun _ => true)
    (fun prev n _ _ =>
       (String.length prev =? 64)%nat && (0 <=? n) && (n <? 2 ^ 32))
    (fun v addr => (0 <=? v) && (String.length addr =? 42)%nat).

(** Two P2WPKH addresses and a transaction id of the usual form. *)
Definition address_a : string := "bc1qw508d6qejxtdg4y5r3zarvary0c5xw7kv8f3t4".
Definition address_b : string := "bc1qar0srrr7xfkvy5l643lydnw9re59gtzzwf5mdq".
Definition txid_a : string :=
  "4a5e1e4baab89f3a32518a88c31bc87f618f76673e2cc77ab2127b7afdeda33b".

Definition world (found : list utxo) (reply : string) : World :=
  mkWorld
    (fun _ => Some (200, found))
    (fun _ _ => Some (200, "txid"))
    reply.

(** 1.0, 10.0 and the binary64 nearest to one third. *)
Definition one : spec_float := S754_finite false 4503599627370496 (-52).
Definition ten : spec_float := S754_finite false 5629499534213120 (-49).
Definition third : spec_float := S754_finite false 6004799503160661 (-54).


(** The binary64 nearest to 55/109 (0.5045871559633027), just below it. *)
Definition rate_55_109 : spec_float := S754_finite false 4544917055144537 (-53).

Definition coin (v : Z) : utxo := mkUtxo "aa" (JInt 0) v.
Definition pay (v : Z) : recipient := mkRecipient "bc1qpayee" v.

(** No text cell converts; the column conversion goes cell by cell. *)
Definition int_of_text (s : string) : PyNum.conv_error + Z := inl PyNum.ValueError.

Fixpoint astype_int (cells : list cell) : option (list cell) :=
  match cells with
  | [] => Some []
  | c :: rest =>
      match py_int int_of_text c, astype_int rest with
      | inr n, Some out => Some (CInt n :: out)
      | _, _ => None
      end
  end.

Definition sheet (rs : list row) : dataframe := mkFrame ["address"; "amount"] rs.

End Fixture.

(** ** Notions the statements use *)

(** The leading character the key check of l.39 asks for. *)
Definition wif_lead (s : string) : Prop :=
  match s with
  | String c _ => c = "K"%char \/ c = "L"%char \/ c = "5"%char
  | EmptyString => False
  end.

Definition utxo_total (utxos : list utxo) : Z :=
  fold_right Z.add 0 (map value utxos).
Definition recipients_total (records : list recipient) : Z :=
  fold_right Z.add 0 (map rec_amount records).

(** The output [add_output] makes for a recipient. *)
Definition payout (r : recipient) : TxOut := mkTxOut (rec_amount r) (rec_address r).

(** What an input spends: the outpoint's transaction and its value. *)
Definition spent (i : TxIn) : string * Z := (prev_txid i, in_value i).
Definition offered (u : utxo) : string * Z := (txid u, value u).

(** A float that is not below zero (or no number at all). *)
Definition nonneg_or_nan (x : spec_float) : Prop :=
  match x with
  | S754_zero s | S754_infinity s | S754_finite s _ _ => s = false
  | S754_nan => True
  end.

(** An entry whose [vout] passes the test of l.171. *)
Definition vout_is_int (u : utxo) : bool :=
  match vout u with JInt _ => true | JOther => false end.

(** The input l.175-181 add for an entry (its index read off [vout]). *)
Definition input_of (wallet_address : string) (u : utxo) : TxIn :=
  mkTxIn (txid u) (match vout u with JInt n => n | JOther => 0 end)
    (value u) wallet_address.

(** A recipient the test of l.190 lets through. *)
Definition is_p2wpkh (r : recipient) : bool :=
  PyStr.startswith (rec_address r) P2WPKH_PREFIX.

(** Size in bytes of the serialisation l.197 measures: all inputs and the
    recipients' outputs, no change output, no signature yet. *)
Definition unsigned_size {key : Type} (lib : BitcoinLib key)
  (wallet_address : string) (utxos : list utxo) (records : list recipient) : Z :=
  Z.of_nat (String.length
              (raw_hex lib (mkTx (map (input_of wallet_address) utxos)
                              (map payout records)))) / 2.

(** The errors of a run of [send_batch_transaction]. *)
Inductive run_error (records : list recipient) : error -> Prop :=
| re_address : run_error records UnexpectedAddressType
| re_status : forall s, run_error records (ProviderError s)
| re_request : run_error records RequestFailed
| re_empty : forall m, run_error records (NoSpendableFunds m)
| re_vout : run_error records MalformedUtxo
| re_input : forall prev n, run_error records (InputRejected prev n)
| re_output : forall v a, run_error records (OutputRejected v a)
| re_foreign : forall r, In r records -> is_p2wpkh r = false ->
    run_error records (UnsupportedOutputScript (rec_address r))
| re_fee : forall c, run_error records (FeeConversion c)
| re_sign : forall j, run_error records (SigningFailure j)
| re_verify : run_error records VerificationFailure
| re_broadcast : forall text, run_error records (BroadcastFailed text).

(** The library takes the input l.175-181 make for an entry. *)
Definition input_accepted {key : Type} (lib : BitcoinLib key)
  (wallet_address : string) (u : utxo) : bool :=
  accepts_input lib (txid u) (output_n (input_of wallet_address u)) (value u)
    wallet_address.

(** The library takes the output l.193 makes for a recipient. *)
Definition output_accepted {key : Type} (lib : BitcoinLib key) (r : recipient)
  : bool :=
  accepts_output lib (rec_amount r) (rec_address r).

(** A request to the provider. *)
Definition is_http (e : event) : bool :=
  match e with HttpGet _ | HttpPost _ _ => true | _ => false end.

(** ** Runs of the whole program on the stand-in *)

(** One output of 100000, payments of 20000 and 30000 at 10 sat/byte: the
    transaction takes 140 bytes, the fee is 1400 and 48600 go back to the
    funding address. *)
Example main_pays_and_broadcasts :
  main Fixture.int_of_text Fixture.astype_int (Fixture.lib true)
    (Fixture.world [Fixture.coin 100000] "y")
    (mkConfig "Kx"
       (Fixture.sheet [mkRow " bc1qpayee " (CInt 20000); mkRow "bc1qpayee" (CInt 30000)])
       Fixture.ten 1000)
  = (Ok (Some "txid"),
     [KeyDecode "Kx";
      HttpGet (UTXO_URL Fixture.funding_address);
      Prompt;
      HttpPost BROADCAST_URL (Fixture.zeros 342)]).
Proof. vm_compute. reflexivity. Qed.

Example main_refuses_dust_row :
  main Fixture.int_of_text Fixture.astype_int (Fixture.lib true)
    (Fixture.world [Fixture.coin 100000] "y")
    (mkConfig "Kx"
       (Fixture.sheet [mkRow "bc1qpayee" (CInt 20000); mkRow "bc1qpayee" (CInt 545)])
       Fixture.ten 1000)
  = (Err (InvalidRecipient 1 (AmountFormat (BelowDust 545))), [KeyDecode "Kx"]).
Proof. vm_compute. reflexivity. Qed.

(** * Properties *)

(** ** Strings *)

Lemma startswith_cons (c : ascii) (s : string) (d : ascii) :
  PyStr.startswith (String c s) (String d EmptyString) = Ascii.eqb d c.
Proof.
  unfold PyStr.startswith; simpl.
  destruct (ascii_dec d c) as [->|ne].
  - rewrite Ascii.eqb_refl. now destruct s.
  - apply Ascii.eqb_neq in ne. now rewrite ne.
Qed.

Lemma wif_lead_spec (s : string) :
  PyStr.startswith_any s ["K"; "L"; "5"] = true <-> wif_lead s.
Proof.
  destruct s as [|c s]; unfold PyStr.startswith_any; cbn [existsb wif_lead].
  - split; [discriminate | tauto].
  - rewrite !startswith_cons, !orb_true_iff, !Ascii.eqb_eq.
    split.
    + intros [H|[H|[H|H]]]; auto; discriminate.
    + intros [H|[H|H]]; auto.
Qed.

Lemma upper_is_Y (s : string) :
  PyStr.upper s = "Y" <-> s = "Y" \/ s = "y".
Proof.
  split.
  - destruct s as [|c [|c' s']]; simpl; try discriminate.
    intros H. injection H as H.
    unfold PyStr.upper_char in H.
    destruct c as [[] [] [] [] [] [] [] []]; vm_compute in H;
      try discriminate; auto.
  - intros [->| ->]; reflexivity.
Qed.

(** ** The recipient sheet *)

Section SheetFacts.

Variable int_of_text : string -> PyNum.conv_error + Z.
Variable astype_int : list cell -> option (list cell).

Lemma check_row_inr (r : row) (n : Z) :
  check_row int_of_text r = inr n <->
  PyStr.startswith (PyStr.strip (row_address r)) P2WPKH_PREFIX = true /\
  py_int int_of_text (row_amount r) = inr n /\ 546 <= n.
Proof.
  unfold check_row, check_amount, DUST_LIMIT.
  destruct (PyStr.startswith _ _); simpl.
  - destruct (py_int int_of_text (row_amount r)) as [[]|a].
    + split; [discriminate | intros (_ & H & _); discriminate].
    + split; [discriminate | intros (_ & H & _); discriminate].
    + destruct (Z.leb_spec a 0) as [Le|Gt]; [|destruct (Z.ltb_spec a 546) as [Lt|Ge]].
      * split; [discriminate | intros (_ & E & B); injection E as ->; lia].
      * split; [discriminate | intros (_ & E & B); injection E as ->; lia].
      * split.
        -- intros E; injection E as ->. auto.
        -- intros (_ & E & _). injection E as ->. reflexivity.
  - split; [discriminate | intros (H & _); discriminate].
Qed.

Lemma check_row_valid (r : row) :
  (exists n, check_row int_of_text r = inr n) <-> (valid_row int_of_text) r.
Proof.
  unfold valid_row. split.
  - intros (n & H). apply check_row_inr in H as (Ha & Hn & Hd).
    split; [assumption | exists n; repeat split; [assumption | lia | assumption]].
  - intros (Ha & n & Hn & _ & Hd). exists n. apply check_row_inr. auto.
Qed.

Lemma check_rows_ok (rs : list row) :
  forall idx, check_rows int_of_text idx rs = Ok tt <-> Forall (valid_row int_of_text) rs.
Proof.
  induction rs as [|r rs IH]; intros idx; simpl.
  - split; auto.
  - destruct (check_row int_of_text r) as [why|n] eqn:E.
    + split; [discriminate|].
      intros H. inversion H as [|? ? Hr _]; subst.
      apply check_row_valid in Hr as (n & Hn). congruence.
    + rewrite IH. split.
      * intros H. constructor; [|assumption].
        apply check_row_valid. now exists n.
      * intros H. now inversion H.
Qed.

Lemma check_rows_unit (rs : list row) :
  forall idx u, check_rows int_of_text idx rs = Ok u -> u = tt.
Proof. intros idx []. reflexivity. Qed.

(** What a successful call went through: both columns, the loop, the
    column conversion. *)
Lemma read_excel_data_ok (df : dataframe) :
  is_ok (read_excel_data int_of_text astype_int df) = true <->
  has_column df "address" = true /\ has_column df "amount" = true /\
  Forall (valid_row int_of_text) (rows df) /\
  astype_int (map row_amount (rows df)) <> None.
Proof.
  unfold read_excel_data.
  destruct (has_column df "address"), (has_column df "amount"); simpl;
    try (split; [discriminate | intros (? & ? & _); discriminate]).
  destruct (check_rows int_of_text 0 (rows df)) as [[]|e] eqn:E.
  - apply check_rows_ok in E.
    destruct (astype_int (map row_amount (rows df))); simpl.
    + repeat split; auto. discriminate.
    + split; [discriminate | intros (_ & _ & _ & H); congruence].
  - simpl. split; [discriminate|].
    intros (_ & _ & H & _). apply (check_rows_ok _ 0) in H. congruence.
Qed.

End SheetFacts.


(** White space of more than one byte is stripped as well: a no-break space
    (U+00A0, bytes C2 A0) before and an ideographic space (U+3000, bytes
    E3 80 80) after the address. *)
Example strip_removes_unicode_space :
  PyStr.strip
    (String (ascii_of_nat 194) (String (ascii_of_nat 160)
       ("bc1qx" ++ String (ascii_of_nat 227) (String (ascii_of_nat 128)
                     (String (ascii_of_nat 128) EmptyString)))))
  = "bc1qx".
Proof. reflexivity. Qed.



(** ** Assembly: inputs, outputs, fee and change *)

Lemma sum_app (xs ys : list Z) :
  fold_right Z.add 0 (xs ++ ys)%list = fold_right Z.add 0 xs + fold_right Z.add 0 ys.
Proof. induction xs as [|x xs IH]; simpl; lia. Qed.

Lemma spent_input_of (wallet_address : string) (utxos : list utxo) :
  map spent (map (input_of wallet_address) utxos) = map offered utxos.
Proof. rewrite map_map. reflexivity. Qed.

Lemma sum_inputs_spent (t : Transaction) :
  sum_inputs t = fold_right Z.add 0 (map snd (map spent (inputs t))).
Proof. unfold sum_inputs. now rewrite map_map. Qed.

Lemma utxo_total_offered (utxos : list utxo) :
  utxo_total utxos = fold_right Z.add 0 (map snd (map offered utxos)).
Proof. unfold utxo_total. now rewrite map_map. Qed.

Lemma sum_payouts (records : list recipient) :
  fold_right Z.add 0 (map out_value (map payout records)) = recipients_total records.
Proof. unfold recipients_total. now rewrite map_map. Qed.

Section BuildFacts.

Context {key : Type} (lib : BitcoinLib key).

(** The input loop, when it comes through. *)
Lemma add_inputs_ok (wallet_address : string) (utxos : list utxo) :
  forall t total t' total',
    add_inputs lib wallet_address utxos t total = Ok (t', total') ->
    forallb vout_is_int utxos = true /\
    forallb (input_accepted lib wallet_address) utxos = true /\
    t' = mkTx (inputs t ++ map (input_of wallet_address) utxos)%list (outputs t) /\
    total' = total + utxo_total utxos.
Proof.
  induction utxos as [|u rest IH]; intros t total t' total' H; simpl in H.
  - injection H as <- <-. rewrite app_nil_r. unfold utxo_total. simpl.
    destruct t. repeat split; cbn; lia.
  - destruct (vout u) as [n|] eqn:E; [|discriminate].
    unfold add_input in H.
    destruct (accepts_input lib (txid u) n (value u) wallet_address) eqn:A;
      [|discriminate].
    cbn [bindR] in H. apply IH in H as (Hv & Ha & -> & ->).
    assert (Vu : vout_is_int u = true) by (unfold vout_is_int; now rewrite E).
    assert (Iu : input_of wallet_address u
                 = mkTxIn (txid u) n (value u) wallet_address)
      by (unfold input_of; now rewrite E).
    assert (Au : input_accepted lib wallet_address u = true)
      by (unfold input_accepted; rewrite Iu; exact A).
    cbn [forallb map inputs outputs]. rewrite Vu, Au, Hv, Ha, Iu, <- app_assoc.
    unfold utxo_total. cbn [map fold_right app]. repeat split. lia.
Qed.

Lemma add_inputs_closed (wallet_address : string) (utxos : list utxo) :
  forall t total,
    forallb vout_is_int utxos = true ->
    forallb (input_accepted lib wallet_address) utxos = true ->
    add_inputs lib wallet_address utxos t total
    = Ok (mkTx (inputs t ++ map (input_of wallet_address) utxos)%list (outputs t),
          total + utxo_total utxos).
Proof.
  induction utxos as [|u rest IH]; intros t total Hv Ha; simpl.
  - rewrite app_nil_r. unfold utxo_total. simpl. rewrite Z.add_0_r.
    now destruct t.
  - cbn [forallb] in Hv, Ha.
    apply andb_true_iff in Hv as (Hu & Hv). apply andb_true_iff in Ha as (Au & Ha).
    unfold vout_is_int in Hu.
    destruct (vout u) as [n|] eqn:E; [|discriminate].
    assert (Iu : input_of wallet_address u
                 = mkTxIn (txid u) n (value u) wallet_address)
      by (unfold input_of; now rewrite E).
    unfold input_accepted in Au. rewrite Iu in Au. cbn [output_n] in Au.
    unfold add_input. rewrite Au. cbn [bindR].
    rewrite IH by assumption. cbn [inputs outputs map]. rewrite Iu.
    rewrite <- app_assoc. unfold utxo_total. cbn [map fold_right app].
    f_equal. f_equal. lia.
Qed.

Lemma add_inputs_errors (wallet_address : string) (utxos : list utxo) :
  forall t total e,
    add_inputs lib wallet_address utxos t total = Err e ->
    e = MalformedUtxo \/ exists prev n, e = InputRejected prev n.
Proof.
  induction utxos as [|u rest IH]; intros t total e H; simpl in H;
    [discriminate|].
  destruct (vout u) as [n|]; [|injection H as <-; auto].
  unfold add_input in H.
  destruct (accepts_input lib (txid u) n (value u) wallet_address);
    cbn [bindR] in H; [now apply IH in H|].
  injection H as <-. eauto.
Qed.

(** The first entry whose [vout] is no integer, reached with every input
    before it taken, raises. *)
Lemma add_inputs_malformed (wallet_address : string)
  (before : list utxo) (u : utxo) (after : list utxo) :
  forall t total,
    forallb vout_is_int before = true ->
    forallb (input_accepted lib wallet_address) before = true ->
    vout_is_int u = false ->
    add_inputs lib wallet_address (before ++ u :: after) t total
    = Err MalformedUtxo.
Proof.
  induction before as [|b rest IH]; intros t total Hv Ha Hu; simpl.
  - unfold vout_is_int in Hu. now destruct (vout u).
  - cbn [forallb] in Hv, Ha.
    apply andb_true_iff in Hv as (Hb & Hv). apply andb_true_iff in Ha as (Ab & Ha).
    unfold vout_is_int in Hb.
    destruct (vout b) as [n|] eqn:E; [|discriminate].
    unfold input_accepted, input_of in Ab. rewrite E in Ab. cbn [output_n] in Ab.
    unfold add_input. rewrite Ab. cbn [bindR]. now apply IH.
Qed.

Lemma add_inputs_inv (wallet_address : string) (utxos : list utxo) :
  forall t total t' total',
    add_inputs lib wallet_address utxos t total = Ok (t', total') ->
    outputs t' = outputs t /\
    map spent (inputs t') = (map spent (inputs t) ++ map offered utxos)%list /\
    total' = total + utxo_total utxos.
Proof.
  intros t total t' total' H.
  apply add_inputs_ok in H as (_ & _ & -> & ->). cbn [inputs outputs].
  now rewrite map_app, spent_input_of.
Qed.

(** The output loop, when it comes through. *)
Lemma add_outputs_ok (records : list recipient) :
  forall t total t' total',
    add_outputs lib records t total = Ok (t', total') ->
    forallb is_p2wpkh records = true /\
    forallb (output_accepted lib) records = true /\
    t' = mkTx (inputs t) (outputs t ++ map payout records)%list /\
    total' = total + recipients_total records.
Proof.
  induction records as [|r rest IH]; intros t total t' total' H; simpl in H.
  - injection H as <- <-. rewrite app_nil_r. unfold recipients_total. simpl.
    destruct t. repeat split; cbn; lia.
  - destruct (PyStr.startswith (rec_address r) P2WPKH_PREFIX) eqn:P;
      [|discriminate].
    cbn [negb] in H. unfold add_output in H.
    destruct (accepts_output lib (rec_amount r) (rec_address r)) eqn:A;
      [|discriminate].
    cbn [bindR] in H. apply IH in H as (Hp & Ha & -> & ->).
    assert (Pr : is_p2wpkh r = true) by exact P.
    assert (Ar : output_accepted lib r = true) by exact A.
    cbn [forallb map inputs outputs]. rewrite Pr, Ar, Hp, Ha, <- app_assoc.
    unfold recipients_total. cbn [map fold_right app payout]. repeat split. lia.
Qed.

Lemma add_outputs_closed (records : list recipient) :
  forall t total,
    forallb is_p2wpkh records = true ->
    forallb (output_accepted lib) records = true ->
    add_outputs lib records t total
    = Ok (mkTx (inputs t) (outputs t ++ map payout records)%list,
          total + recipients_total records).
Proof.
  induction records as [|r rest IH]; intros t total Hp Ha; simpl.
  - rewrite app_nil_r. unfold recipients_total. simpl. rewrite Z.add_0_r.
    now destruct t.
  - cbn [forallb] in Hp, Ha.
    apply andb_true_iff in Hp as (Hr & Hp). apply andb_true_iff in Ha as (Ar & Ha).
    unfold is_p2wpkh in Hr. unfold output_accepted in Ar.
    rewrite Hr. cbn [negb]. unfold add_output. rewrite Ar. cbn [bindR].
    rewrite IH by assumption. cbn [inputs outputs map].
    rewrite <- app_assoc. unfold recipients_total. cbn [map fold_right app payout].
    f_equal. f_equal. lia.
Qed.

Lemma add_outputs_errors (records : list recipient) :
  forall t total e,
    add_outputs lib records t total = Err e ->
    (exists r, In r records /\ is_p2wpkh r = false /\
               e = UnsupportedOutputScript (rec_address r))
    \/ exists v a, e = OutputRejected v a.
Proof.
  induction records as [|x rest IH]; intros t total e H; simpl in H;
    [discriminate|].
  destruct (PyStr.startswith (rec_address x) P2WPKH_PREFIX) eqn:E;
    cbn [negb] in H.
  - unfold add_output in H.
    destruct (accepts_output lib (rec_amount x) (rec_address x));
      cbn [bindR] in H.
    + apply IH in H as [(r & Hin & Hr & ->)|H]; [left|now right].
      exists r. simpl. auto.
    + injection H as <-. right. eauto.
  - injection H as <-. left. exists x. simpl. auto.
Qed.

(** The first recipient of another kind, reached with every output before
    it taken, raises. *)
Lemma add_outputs_foreign (before : list recipient) (r : recipient)
  (after : list recipient) :
  forall t total,
    forallb is_p2wpkh before = true ->
    forallb (output_accepted lib) before = true ->
    is_p2wpkh r = false ->
    add_outputs lib (before ++ r :: after) t total
    = Err (UnsupportedOutputScript (rec_address r)).
Proof.
  induction before as [|b rest IH]; intros t total Hp Ha Hr; simpl.
  - unfold is_p2wpkh in Hr. now rewrite Hr.
  - cbn [forallb] in Hp, Ha.
    apply andb_true_iff in Hp as (Hb & Hp). apply andb_true_iff in Ha as (Ab & Ha).
    unfold is_p2wpkh in Hb. unfold output_accepted in Ab.
    rewrite Hb. cbn [negb]. unfold add_output. rewrite Ab. cbn [bindR].
    now apply IH.
Qed.

Lemma add_outputs_inv (records : list recipient) :
  forall t total t' total',
    add_outputs lib records t total = Ok (t', total') ->
    inputs t' = inputs t /\
    outputs t' = (outputs t ++ map payout records)%list /\
    total' = total + recipients_total records.
Proof.
  intros t total t' total' H.
  apply add_outputs_ok in H as (_ & _ & -> & ->). auto.
Qed.

(** Everything a returned draft tells. *)
Lemma build_ok (wallet_address : string) (utxos : list utxo)
  (records : list recipient) (fee_rate : spec_float) (min_utxo : Z) (d : draft) :
  build lib wallet_address utxos records fee_rate min_utxo = Ok d ->
  utxos <> [] /\
  forallb vout_is_int utxos = true /\
  forallb (input_accepted lib wallet_address) utxos = true /\
  forallb is_p2wpkh records = true /\
  forallb (output_accepted lib) records = true /\
  tx_size d = unsigned_size lib wallet_address utxos records /\
  compute_fee (tx_size d) fee_rate = Ok (fee d) /\
  total_input d = utxo_total utxos /\
  total_output d = recipients_total records /\
  change d = total_input d - total_output d - fee d /\
  tx d = mkTx (map (input_of wallet_address) utxos)
           (map payout records
              ++ (if change d >? 0 then [mkTxOut (change d) wallet_address]
                  else []))%list /\
  ((change d >? 0) = true -> accepts_output lib (change d) wallet_address = true).
Proof.
  unfold build. destruct utxos as [|u rest]; [discriminate|].
  cbv iota. assert (Hne : u :: rest <> []) by discriminate.
  revert Hne. generalize (u :: rest). intros us Hne.
  destruct (add_inputs lib wallet_address us new_transaction 0)
    as [[t1 tin]|e] eqn:E1; [|discriminate].
  cbn [bindR].
  destruct (add_outputs lib records t1 0) as [[t2 tout]|e] eqn:E2;
    [|discriminate].
  cbn [bindR].
  apply add_inputs_ok in E1 as (Hv & Ha & -> & ->).
  apply add_outputs_ok in E2 as (Hp & Ho & -> & ->).
  cbn [new_transaction inputs outputs app].
  fold (unsigned_size lib wallet_address us records).
  destruct (compute_fee _ fee_rate) as [f|e] eqn:E3; [|discriminate].
  cbn [bindR].
  remember (0 + utxo_total us - (0 + recipients_total records) - f) as c eqn:Ec.
  destruct (c >? 0) eqn:C.
  - unfold add_output.
    destruct (accepts_output lib c wallet_address) eqn:A; [|discriminate].
    cbn [bindR inputs outputs]. intros H. injection H as <-.
    cbn [tx total_input total_output tx_size fee change]. rewrite C.
    repeat split; try assumption; try reflexivity; try lia.
    intros _. exact A.
  - cbn [bindR]. intros H. injection H as <-.
    cbn [tx total_input total_output tx_size fee change]. rewrite C.
    repeat split; try assumption; try reflexivity; try discriminate; try lia.
    now rewrite app_nil_r.
Qed.

(** What a returned draft looks like. *)
Lemma build_inv (wallet_address : string) (utxos : list utxo)
  (records : list recipient) (fee_rate : spec_float) (min_utxo : Z) (d : draft) :
  build lib wallet_address utxos records fee_rate min_utxo = Ok d ->
  utxos <> [] /\
  map spent (inputs (tx d)) = map offered utxos /\
  outputs (tx d)
    = (map payout records
         ++ if change d >? 0 then [mkTxOut (change d) wallet_address] else [])%list /\
  total_input d = utxo_total utxos /\
  total_output d = recipients_total records /\
  compute_fee (tx_size d) fee_rate = Ok (fee d) /\
  change d = total_input d - total_output d - fee d.
Proof.
  intros H.
  apply build_ok in H
    as (Hne & _ & _ & _ & _ & _ & Hf & Hti & Hto & Hc & Ht & _).
  rewrite Ht. cbn [inputs outputs]. rewrite spent_input_of. auto 10.
Qed.

(** The balance of a returned draft: what the inputs carry beyond outputs
    and fee is the negative part of the change. *)
Lemma build_balance (wallet_address : string) (utxos : list utxo)
  (records : list recipient) (fee_rate : spec_float) (min_utxo : Z) (d : draft) :
  build lib wallet_address utxos records fee_rate min_utxo = Ok d ->
  sum_inputs (tx d) = sum_outputs (tx d) + fee d + Z.min 0 (change d).
Proof.
  intros H. apply build_inv in H as (_ & Hi & Ho & Hti & Hto & _ & Hc).
  rewrite sum_inputs_spent, Hi, <- utxo_total_offered, <- Hti.
  unfold sum_outputs. rewrite Ho, map_app, sum_app, sum_payouts, <- Hto.
  destruct (Z.gtb_spec (change d) 0); simpl; lia.
Qed.

(** With a change that is not negative the draft conserves value. *)
Lemma build_conserves_when_funded (wallet_address : string) (utxos : list utxo)
  (records : list recipient) (fee_rate : spec_float) (min_utxo : Z) (d : draft) :
  build lib wallet_address utxos records fee_rate min_utxo = Ok d ->
  0 <= change d ->
  sum_inputs (tx d) = sum_outputs (tx d) + fee d.
Proof. intros H Hc. apply build_balance in H. lia. Qed.

(** The only errors assembly raises: no spendable output, a malformed
    entry, an address of another kind, a fee that does not convert, an
    input or an output the library does not take.  There is none for a
    shortfall. *)
Lemma build_errors (wallet_address : string) (utxos : list utxo)
  (records : list recipient) (fee_rate : spec_float) (min_utxo : Z) (e : error) :
  build lib wallet_address utxos records fee_rate min_utxo = Err e ->
  e = NoSpendableFunds min_utxo \/ e = MalformedUtxo \/
  (exists a, e = UnsupportedOutputScript a) \/ (exists c, e = FeeConversion c) \/
  (exists prev n, e = InputRejected prev n) \/
  (exists v a, e = OutputRejected v a).
Proof.
  unfold build. destruct utxos as [|u rest].
  { intros H; injection H as <-; auto. }
  set (us := u :: rest).
  destruct (add_inputs lib wallet_address us new_transaction 0)
    as [[t1 tin]|e1] eqn:E1; cbn [bindR].
  - destruct (add_outputs lib records t1 0) as [[t2 tout]|e2] eqn:E2;
      cbn [bindR].
    + unfold compute_fee.
      destruct (PyNum.int_mul_float _ _) as [c|p]; cbn [bindR].
      * intros H; injection H as <-; eauto 8.
      * destruct (PyNum.int_of_float p) as [c|n]; cbn [bindR];
          [intros H; injection H as <-; eauto 8|].
        destruct (_ >? 0); [|discriminate].
        unfold add_output. destruct (accepts_output lib _ _); [discriminate|].
        cbn [bindR]. intros H; injection H as <-. eauto 10.
    + intros H; injection H as <-.
      apply add_outputs_errors in E2 as [(r & _ & _ & ->)|(v & a & ->)];
        eauto 10.
  - intros H; injection H as <-.
    apply add_inputs_errors in E1 as [->|(prev & n & ->)]; eauto 10.
Qed.

End BuildFacts.

(** C1. The claim asks that assembly fail when the inputs do not cover
    outputs and fee.  Evaluated on one output of 1000 against a payment of
    2000 at 1 sat/byte: the code returns a draft with a change of -1109 and no
    change output, and the run goes on to sign, verify and post it. *)
Theorem build_returns_draft_on_shortfall :
  build (Fixture.lib true) Fixture.funding_address
    [Fixture.coin 1000] [Fixture.pay 2000] Fixture.one 1000
  = Ok (mkDraft
          (mkTx [mkTxIn "aa" 0 1000 Fixture.funding_address]
                [mkTxOut 2000 "bc1qpayee"])
          1000 2000 109 109 (-1109))
  /\ outcome (send_batch_transaction (Fixture.lib true)
                (Fixture.world [Fixture.coin 1000] "Y") tt
                [Fixture.pay 2000] Fixture.one 1000)
     = Ok (Some "txid")
  /\ existsb is_post
       (calls (send_batch_transaction (Fixture.lib true)
                 (Fixture.world [Fixture.coin 1000] "Y") tt
                 [Fixture.pay 2000] Fixture.one 1000))
     = true.
Proof. repeat split; vm_compute; reflexivity. Qed.

(** C2. The claim asks that a returned draft conserve value.  Evaluated on
    one output of 50000 against a payment of 49950 at 1 sat/byte: the code
    returns a draft whose inputs carry 50000 while outputs plus the computed
    fee make 50059. *)
Theorem build_draft_breaks_conservation :
  exists d,
    build (Fixture.lib true) Fixture.funding_address
      [Fixture.coin 50000] [Fixture.pay 49950] Fixture.one 1000 = Ok d
    /\ sum_inputs (tx d) = 50000
    /\ sum_outputs (tx d) = 49950
    /\ fee d = 109
    /\ sum_inputs (tx d) <> sum_outputs (tx d) + fee d.
Proof.
  eexists. split; [vm_compute; reflexivity|].
  repeat split; try reflexivity. vm_compute. discriminate.
Qed.

(** C4. In a returned draft the change is inputs minus payments minus fee;
    when it is positive, whatever its size, one output of exactly that value
    to the funding address follows the recipients' outputs; when it is zero
    the outputs are the recipients' alone. *)
Theorem change_output_appended :
  forall (key : Type) (lib : BitcoinLib key) (wallet_address : string)
         (utxos : list utxo) (records : list recipient)
         (fee_rate : spec_float) (min_utxo : Z) (d : draft),
    build lib wallet_address utxos records fee_rate min_utxo = Ok d ->
    change d = utxo_total utxos - recipients_total records - fee d
    /\ (0 < change d ->
        outputs (tx d)
        = (map payout records ++ [mkTxOut (change d) wallet_address])%list)
    /\ (change d = 0 -> outputs (tx d) = map payout records).
Proof.
  intros key lib wallet_address utxos records fee_rate min_utxo d H.
  apply build_inv in H as (_ & _ & Ho & Hti & Hto & _ & Hc).
  split; [lia|]. split; intros Hch; rewrite Ho.
  - destruct (Z.gtb_spec (change d) 0); [reflexivity | lia].
  - rewrite Hch. simpl. apply app_nil_r.
Qed.

(** A change of one satoshi is appended all the same. *)
Lemma change_output_appended_witness :
  build (Fixture.lib true) Fixture.funding_address
    [Fixture.coin 2110] [Fixture.pay 2000] Fixture.one 1000
  = Ok (mkDraft
          (mkTx [mkTxIn "aa" 0 2110 Fixture.funding_address]
                [mkTxOut 2000 "bc1qpayee"; mkTxOut 1 Fixture.funding_address])
          2110 2000 109 109 1)
  /\ outputs (mkTx [mkTxIn "aa" 0 2110 Fixture.funding_address]
                [mkTxOut 2000 "bc1qpayee"; mkTxOut 1 Fixture.funding_address])
     = [mkTxOut 2000 "bc1qpayee"; mkTxOut 1 Fixture.funding_address].
Proof.
  assert (H : build (Fixture.lib true) Fixture.funding_address
                [Fixture.coin 2110] [Fixture.pay 2000] Fixture.one 1000
              = Ok (mkDraft
                      (mkTx [mkTxIn "aa" 0 2110 Fixture.funding_address]
                         [mkTxOut 2000 "bc1qpayee";
                          mkTxOut 1 Fixture.funding_address])
                      2110 2000 109 109 1))
    by (vm_compute; reflexivity).
  split; [exact H|].
  exact (proj1 (proj2 (change_output_appended _ _ _ _ _ _ _ _ H)) eq_refl).
Defined.

(** ** The fee *)

Lemma round_aux_sign (s : bool) (m e : Z) (l : location) :
  match binary_round_aux PyNum.prec PyNum.emax s m e l with
  | S754_zero s' | S754_infinity s' | S754_finite s' _ _ => s' = s
  | S754_nan => True
  end.
Proof.
  unfold binary_round_aux.
  destruct (shr_fexp _ _ m e l) as [mrs e1].
  destruct (shr_fexp _ _ _ e1 loc_Exact) as [mrs' e2].
  destruct (shr_m mrs'); [reflexivity| |exact I].
  destruct (e2 <=? _); reflexivity.
Qed.

Lemma float_of_int_nonneg (n : Z) (x : spec_float) :
  0 <= n -> PyNum.float_of_int n = inr x -> nonneg_or_nan x.
Proof.
  intros Hn. unfold PyNum.float_of_int, binary_normalize.
  destruct n as [|p|p]; [| |lia].
  - intros H; injection H as <-. reflexivity.
  - unfold binary_round.
    destruct (shl_align _ _ _) as [mz ez].
    pose proof (round_aux_sign false (Zpos mz) ez loc_Exact) as S.
    destruct (binary_round_aux _ _ _ _ _ _); intros H;
      try discriminate; injection H as <-; exact S.
Qed.

Lemma float_mul_nonneg (x y : spec_float) :
  nonneg_or_nan x -> PyNum.is_positive y = true ->
  nonneg_or_nan (PyNum.float_mul x y).
Proof.
  destruct y as [| | |[] my ey]; try discriminate. intros Hx _.
  destruct x as [sx|sx| |sx mx ex]; simpl in Hx; subst; simpl; auto.
  apply (round_aux_sign (xorb false false)).
Qed.

(** [int(x)] of a finite float that is not negative is the floor of the
    rational it denotes. *)
Lemma int_of_float_floor (x : spec_float) (n : Z) :
  nonneg_or_nan x -> PyNum.int_of_float x = inr n ->
  PyNum.is_finite x = true /\ n = Qfloor (PyNum.Q_of_float x).
Proof.
  destruct x as [s|s| |s m e]; simpl; intros Hs H; try discriminate.
  - injection H as <-. split; reflexivity.
  - subst s. injection H as <-. split; [reflexivity|].
    destruct e as [|p|p]; cbn [cond_Zopp PyNum.Q_of_float].
    + rewrite Qfloor_Z. simpl. lia.
    + rewrite Qfloor_Z, Z.shiftl_mul_pow2 by lia. reflexivity.
    + change (Z.shiftl (Zpos m) (Zneg p)) with (Z.shiftr (Zpos m) (Zpos p)).
      rewrite Z.shiftr_div_pow2 by lia.
      unfold Qfloor. now rewrite Pos2Z.inj_pow.
Qed.

Lemma compute_fee_floor (size : Z) (fee_rate : spec_float) (f : Z) :
  0 <= size -> PyNum.is_positive fee_rate = true ->
  compute_fee size fee_rate = Ok f ->
  exists product,
    PyNum.int_mul_float size fee_rate = inr product /\
    PyNum.is_finite product = true /\
    f = Qfloor (PyNum.Q_of_float product).
Proof.
  intros Hs Hr. unfold compute_fee, PyNum.int_mul_float.
  destruct (PyNum.float_of_int size) as [c|x] eqn:Ex; [discriminate|].
  destruct (PyNum.int_of_float (PyNum.float_mul x fee_rate)) as [c|n] eqn:En;
    [discriminate|].
  intros H; injection H as <-.
  exists (PyNum.float_mul x fee_rate). split; [reflexivity|].
  apply int_of_float_floor; [|assumption].
  apply float_mul_nonneg; [|assumption].
  now apply (float_of_int_nonneg size).
Qed.

Lemma build_size (key : Type) (lib : BitcoinLib key) (wallet_address : string)
  (utxos : list utxo) (records : list recipient) (fee_rate : spec_float)
  (min_utxo : Z) (d : draft) :
  build lib wallet_address utxos records fee_rate min_utxo = Ok d ->
  0 <= tx_size d.
Proof.
  intros H. apply build_ok in H as (_ & _ & _ & _ & _ & -> & _).
  unfold unsigned_size. apply Z.div_pos; lia.
Qed.

(** C3 (as amended). For a positive fee rate the fee of a returned draft is
    the floor of the binary64 product of size and rate: the size is converted
    to binary64, the product is rounded to the nearest binary64 (ties to
    even), and [int] cuts the fraction off.  It is the floor of the rounded
    product, not of the exact one. *)
Theorem fee_is_floor_of_binary64_product :
  forall (key : Type) (lib : BitcoinLib key) (wallet_address : string)
         (utxos : list utxo) (records : list recipient)
         (fee_rate : spec_float) (min_utxo : Z) (d : draft),
    build lib wallet_address utxos records fee_rate min_utxo = Ok d ->
    PyNum.is_positive fee_rate = true ->
    exists product,
      PyNum.int_mul_float (tx_size d) fee_rate = inr product /\
      PyNum.is_finite product = true /\
      fee d = Qfloor (PyNum.Q_of_float product).
Proof.
  intros key lib wallet_address utxos records fee_rate min_utxo d H Hr.
  apply compute_fee_floor; [now apply build_size in H | assumption |].
  now apply build_inv in H.
Qed.

Lemma fee_is_floor_of_binary64_product_witness :
  exists product,
    PyNum.int_mul_float 109 Fixture.rate_55_109 = inr product /\
    PyNum.is_finite product = true /\
    55 = Qfloor (PyNum.Q_of_float product).
Proof.
  assert (H : build (Fixture.lib true) Fixture.funding_address
                [Fixture.coin 100000] [Fixture.pay 20000]
                Fixture.rate_55_109 1000
              = Ok (mkDraft
                      (mkTx [mkTxIn "aa" 0 100000 Fixture.funding_address]
                         [mkTxOut 20000 "bc1qpayee";
                          mkTxOut 79945 Fixture.funding_address])
                      100000 20000 109 55 79945))
    by (vm_compute; reflexivity).
  exact (fee_is_floor_of_binary64_product _ _ _ _ _ _ _ _ H eq_refl).
Defined.

(** C3 as stated fails: on a transaction of 109 bytes at the rate
    0.5045871559633027 sat/byte (a binary64 just below 55/109) the code
    charges 55 while the exact product is below 55 and its floor is 54. *)
Lemma fee_differs_from_exact_floor :
  exists d,
    build (Fixture.lib true) Fixture.funding_address
      [Fixture.coin 100000] [Fixture.pay 20000] Fixture.rate_55_109 1000 = Ok d
    /\ PyNum.is_positive Fixture.rate_55_109 = true
    /\ tx_size d = 109
    /\ fee d = 55
    /\ Qfloor (inject_Z (tx_size d) * PyNum.Q_of_float Fixture.rate_55_109) = 54
    /\ fee d
       <> Qfloor (inject_Z (tx_size d) * PyNum.Q_of_float Fixture.rate_55_109).
Proof.
  eexists. split; [vm_compute; reflexivity|].
  repeat split; try reflexivity. vm_compute. discriminate.
Qed.

(** ** The run: what is called, and when *)

Lemma no_broadcast_app (tr tr' : list event) :
  no_broadcast (tr ++ tr')%list <-> no_broadcast tr /\ no_broadcast tr'.
Proof. unfold no_broadcast. rewrite existsb_app. apply orb_false_iff. Qed.

Section RunFacts.

Context {key : Type} (lib : BitcoinLib key) (world : World).

Lemma get_utxos_calls (address : string) (min_utxo : Z) :
  calls (get_utxos_from_api world address min_utxo) = [HttpGet (UTXO_URL address)].
Proof.
  unfold get_utxos_from_api, bind, call.
  destruct (http_get world _) as [[status_code utxos]|]; [|reflexivity].
  destruct (status_code =? 200); reflexivity.
Qed.

Lemma get_utxos_outcome (address : string) (min_utxo status_code : Z)
  (found : list utxo) :
  http_get world (UTXO_URL address) = Some (status_code, found) ->
  outcome (get_utxos_from_api world address min_utxo)
  = if status_code =? 200
    then Ok (filter (fun u => value u >=? min_utxo) found)
    else Err (ProviderError status_code).
Proof.
  intros H. unfold get_utxos_from_api, bind, call. rewrite H.
  destruct (status_code =? 200); reflexivity.
Qed.

(** Up to the signatures the only outside call is the fetch. *)
Lemma assemble_calls (k : key) (records : list recipient)
  (fee_rate : spec_float) (min_utxo : Z) :
  calls (assemble_and_sign lib world k records fee_rate min_utxo) = [] \/
  calls (assemble_and_sign lib world k records fee_rate min_utxo)
  = [HttpGet (UTXO_URL (address_of lib k))].
Proof.
  unfold assemble_and_sign.
  destruct (PyStr.startswith _ _); [|now left]. right. cbn [negb].
  pose proof (get_utxos_calls (address_of lib k) min_utxo) as C.
  destruct (get_utxos_from_api world (address_of lib k) min_utxo)
    as [[utxos|e] tr]; cbn [calls snd] in C; subst tr; [|reflexivity].
  unfold bind, lift, ret.
  destruct (build _ _ _ _ _ _) as [d|e]; [|reflexivity].
  destruct (sign_from _ _ _ _ _) as [t|e]; reflexivity.
Qed.

Lemma assemble_no_broadcast (k : key) (records : list recipient)
  (fee_rate : spec_float) (min_utxo : Z) :
  no_broadcast (calls (assemble_and_sign lib world k records fee_rate min_utxo)).
Proof.
  destruct (assemble_calls k records fee_rate min_utxo) as [-> | ->]; reflexivity.
Qed.

(** When assembly succeeded, the draft was built from the filtered answer
    of the provider. *)
Lemma assemble_inv (k : key) (records : list recipient)
  (fee_rate : spec_float) (min_utxo : Z) (d : draft) (t : Transaction)
  (tr : list event) :
  assemble_and_sign lib world k records fee_rate min_utxo = (Ok (d, t), tr) ->
  exists found,
    http_get world (UTXO_URL (address_of lib k)) = Some (200, found) /\
    build lib (address_of lib k)
      (filter (fun u => value u >=? min_utxo) found) records fee_rate min_utxo
    = Ok d.
Proof.
  unfold assemble_and_sign.
  destruct (PyStr.startswith _ _); [|discriminate]. cbn [negb].
  unfold get_utxos_from_api, bind, call, lift, ret, raise.
  destruct (http_get world _) as [[status_code found]|]; [|discriminate].
  destruct (Z.eqb_spec status_code 200) as [->|]; [|discriminate].
  destruct (build _ _ _ _ _ _) as [d'|e] eqn:B; [|discriminate].
  destruct (sign_from _ _ _ _ _) as [t'|e]; [|discriminate].
  intros H. injection H as <- _ _. eauto.
Qed.

Lemma send_batch_unfold (k : key) (records : list recipient)
  (fee_rate : spec_float) (min_utxo : Z) (d : draft) (t : Transaction)
  (tr : list event) :
  assemble_and_sign lib world k records fee_rate min_utxo = (Ok (d, t), tr) ->
  send_batch_transaction lib world k records fee_rate min_utxo
  = (outcome (verify_and_broadcast lib world t),
     (tr ++ calls (verify_and_broadcast lib world t))%list).
Proof.
  intros H. unfold send_batch_transaction, bind. rewrite H.
  now destruct (verify_and_broadcast lib world t).
Qed.

(** A broadcast request is only made after a verification that passed and
    an answer that reads Y once uppercased. *)
Lemma verify_and_broadcast_post (t : Transaction) :
  existsb is_post (calls (verify_and_broadcast lib world t)) = true ->
  verify lib t = true /\ PyStr.upper (answer world) = "Y".
Proof.
  unfold verify_and_broadcast.
  destruct (verify lib t); [|discriminate]. cbn [negb].
  unfold bind, call.
  destruct (String.eqb_spec (PyStr.upper (answer world)) "Y") as [E|]; auto.
  discriminate.
Qed.

Lemma send_batch_post (k : key) (records : list recipient)
  (fee_rate : spec_float) (min_utxo : Z) :
  existsb is_post
    (calls (send_batch_transaction lib world k records fee_rate min_utxo)) = true ->
  exists d t tr,
    assemble_and_sign lib world k records fee_rate min_utxo = (Ok (d, t), tr) /\
    verify lib t = true /\ PyStr.upper (answer world) = "Y".
Proof.
  pose proof (assemble_no_broadcast k records fee_rate min_utxo) as N.
  destruct (assemble_and_sign lib world k records fee_rate min_utxo)
    as [[[d t]|e] tr] eqn:A; cbn [calls snd] in N.
  - rewrite (send_batch_unfold _ _ _ _ _ _ _ A). cbn [calls snd].
    rewrite existsb_app, N. cbn [orb]. intros H.
    apply verify_and_broadcast_post in H. eauto 6.
  - unfold send_batch_transaction, bind. rewrite A. cbn [calls snd].
    rewrite N. discriminate.
Qed.

End RunFacts.

(** C6. When the verification of the signed transaction fails, the run ends
    with the verification error and has made no broadcast request: nothing
    is called after the check. *)
Theorem failed_verification_never_broadcasts :
  forall (key : Type) (lib : BitcoinLib key) (world : World) (k : key)
         (records : list recipient) (fee_rate : spec_float) (min_utxo : Z)
         (d : draft) (t : Transaction) (tr : list event),
    assemble_and_sign lib world k records fee_rate min_utxo = (Ok (d, t), tr) ->
    verify lib t = false ->
    send_batch_transaction lib world k records fee_rate min_utxo
    = (Err VerificationFailure, tr)
    /\ no_broadcast
         (calls (send_batch_transaction lib world k records fee_rate min_utxo)).
Proof.
  intros key lib world k records fee_rate min_utxo d t tr A V.
  assert (E : send_batch_transaction lib world k records fee_rate min_utxo
              = (Err VerificationFailure, tr)).
  { rewrite (send_batch_unfold _ _ _ _ _ _ _ _ _ A).
    unfold verify_and_broadcast. rewrite V. cbn. now rewrite app_nil_r. }
  split; [exact E|]. rewrite E. cbn [calls snd].
  pose proof (assemble_no_broadcast lib world k records fee_rate min_utxo) as N.
  now rewrite A in N.
Qed.

Lemma failed_verification_never_broadcasts_witness :
  send_batch_transaction (Fixture.lib false)
    (Fixture.world [Fixture.coin 100000] "Y") tt
    [Fixture.pay 20000; Fixture.pay 30000] Fixture.ten 1000
  = (Err VerificationFailure, [HttpGet (UTXO_URL Fixture.funding_address)])
  /\ no_broadcast
       (calls (send_batch_transaction (Fixture.lib false)
                 (Fixture.world [Fixture.coin 100000] "Y") tt
                 [Fixture.pay 20000; Fixture.pay 30000] Fixture.ten 1000)).
Proof.
  refine (failed_verification_never_broadcasts unit (Fixture.lib false)
            (Fixture.world [Fixture.coin 100000] "Y") tt
            [Fixture.pay 20000; Fixture.pay 30000] Fixture.ten 1000
            (mkDraft
               (mkTx [mkTxIn "aa" 0 100000 Fixture.funding_address]
                  [mkTxOut 20000 "bc1qpayee"; mkTxOut 30000 "bc1qpayee";
                   mkTxOut 48600 Fixture.funding_address])
               100000 50000 140 1400 48600)
            _ _ _ _).
  - vm_compute. reflexivity.
  - reflexivity.
Defined.

(** C7. When the provider's answer, once filtered, is empty, the run ends
    with the no-spendable-funds error after the one fetch: no prompt, no
    broadcast request. *)
Theorem empty_utxos_fail_before_broadcast :
  forall (key : Type) (lib : BitcoinLib key) (world : World) (k : key)
         (records : list recipient) (fee_rate : spec_float) (min_utxo : Z)
         (found : list utxo),
    PyStr.startswith (address_of lib k) P2WPKH_PREFIX = true ->
    http_get world (UTXO_URL (address_of lib k)) = Some (200, found) ->
    filter (fun u => value u >=? min_utxo) found = [] ->
    send_batch_transaction lib world k records fee_rate min_utxo
    = (Err (NoSpendableFunds min_utxo), [HttpGet (UTXO_URL (address_of lib k))])
    /\ no_broadcast
         (calls (send_batch_transaction lib world k records fee_rate min_utxo)).
Proof.
  intros key lib world k records fee_rate min_utxo found Ha Hg Hf.
  assert (E : send_batch_transaction lib world k records fee_rate min_utxo
              = (Err (NoSpendableFunds min_utxo),
                 [HttpGet (UTXO_URL (address_of lib k))])).
  { unfold send_batch_transaction, assemble_and_sign, get_utxos_from_api.
    rewrite Ha, Hg. cbn. rewrite Hf. reflexivity. }
  split; [exact E|]. rewrite E. reflexivity.
Qed.

Lemma empty_utxos_fail_before_broadcast_witness :
  send_batch_transaction (Fixture.lib true)
    (Fixture.world [Fixture.coin 999] "Y") tt [Fixture.pay 20000] Fixture.ten 1000
  = (Err (NoSpendableFunds 1000), [HttpGet (UTXO_URL Fixture.funding_address)])
  /\ no_broadcast
       (calls (send_batch_transaction (Fixture.lib true)
                 (Fixture.world [Fixture.coin 999] "Y") tt
                 [Fixture.pay 20000] Fixture.ten 1000)).
Proof.
  apply (empty_utxos_fail_before_broadcast unit (Fixture.lib true)
           (Fixture.world [Fixture.coin 999] "Y") tt [Fixture.pay 20000]
           Fixture.ten 1000 [Fixture.coin 999]); reflexivity.
Defined.

(** C8. Of the provider's answer exactly the entries whose value is at least
    the threshold are kept, in order, and the inputs of an assembled
    transaction spend those entries and no other. *)
Theorem utxo_filter_keeps_exactly_threshold :
  forall (key : Type) (lib : BitcoinLib key) (world : World) (k : key)
         (address : string) (min_utxo : Z) (found : list utxo),
    http_get world (UTXO_URL address) = Some (200, found) ->
    exists kept,
      outcome (get_utxos_from_api world address min_utxo) = Ok kept
      /\ kept = filter (fun u => value u >=? min_utxo) found
      /\ (forall u, In u kept <-> In u found /\ min_utxo <= value u)
      /\ (forall records fee_rate d t tr,
            address = address_of lib k ->
            assemble_and_sign lib world k records fee_rate min_utxo
            = (Ok (d, t), tr) ->
            map spent (inputs (tx d)) = map offered kept
            /\ Forall (fun i => min_utxo <= in_value i) (inputs (tx d))).
Proof.
  intros key lib world k address min_utxo found Hg.
  exists (filter (fun u => value u >=? min_utxo) found).
  split; [now rewrite (get_utxos_outcome _ _ _ _ _ Hg)|].
  split; [reflexivity|]. split.
  - intros u. rewrite filter_In, Z.geb_le. reflexivity.
  - intros records fee_rate d t tr -> A.
    apply assemble_inv in A as (found' & Hg' & B).
    rewrite Hg in Hg'. injection Hg' as <-.
    apply build_inv in B as (_ & Hi & _).
    split; [exact Hi|].
    apply Forall_forall. intros i Hin.
    apply (in_map spent) in Hin. rewrite Hi in Hin.
    apply in_map_iff in Hin as (u & Hu & Hin).
    apply filter_In in Hin as (_ & Hv). apply Z.geb_le in Hv.
    unfold spent, offered in Hu. injection Hu as _ Hu. lia.
Qed.

Lemma utxo_filter_keeps_exactly_threshold_witness :
  exists kept,
    outcome (get_utxos_from_api
               (Fixture.world [Fixture.coin 999; Fixture.coin 1000; Fixture.coin 5] "Y")
               Fixture.funding_address 1000)
    = Ok kept
    /\ kept = [Fixture.coin 1000].
Proof.
  destruct (utxo_filter_keeps_exactly_threshold unit (Fixture.lib true)
              (Fixture.world [Fixture.coin 999; Fixture.coin 1000; Fixture.coin 5] "Y")
              tt Fixture.funding_address 1000
              [Fixture.coin 999; Fixture.coin 1000; Fixture.coin 5] eq_refl)
    as (kept & Ho & Hk & _).
  exists kept. split; [exact Ho | exact Hk].
Defined.

(** C9. The key check comes first: a secret whose first character is not K,
    L or 5 (an empty one included) is refused with the format error and the
    decoder is not called; a secret that starts with one of the three reaches
    the decoder, whatever the decoder then says. *)
Theorem wif_lead_checked_before_decoding :
  forall (key : Type) (lib : BitcoinLib key) (wif_key : string),
    (~ wif_lead wif_key ->
     create_wallet_from_wif lib wif_key = (Err InvalidKeyFormat, []))
    /\ (wif_lead wif_key ->
        calls (create_wallet_from_wif lib wif_key) = [KeyDecode wif_key]
        /\ outcome (create_wallet_from_wif lib wif_key) <> Err InvalidKeyFormat).
Proof.
  intros key lib wif_key. unfold create_wallet_from_wif.
  destruct (PyStr.startswith_any wif_key ["K"; "L"; "5"]) eqn:E.
  - apply wif_lead_spec in E. split; [tauto|]. intros _. cbn [negb].
    unfold decode_key, bind, call, ret, raise.
    destruct (Key lib wif_key) as [k|]; cbn.
    + destruct (PyStr.startswith (address_of lib k) P2WPKH_PREFIX); cbn;
        split; (reflexivity || discriminate).
    + split; [reflexivity | discriminate].
  - split; [reflexivity|]. intros L. apply wif_lead_spec in L. congruence.
Qed.

Lemma wif_lead_checked_before_decoding_witness :
  create_wallet_from_wif (Fixture.lib true) "cTestnetSecret"
  = (Err InvalidKeyFormat, [])
  /\ calls (create_wallet_from_wif (Fixture.lib true) "L1") = [KeyDecode "L1"].
Proof.
  split.
  - apply (proj1 (wif_lead_checked_before_decoding unit (Fixture.lib true)
                    "cTestnetSecret")).
    simpl. intros [H|[H|H]]; discriminate H.
  - apply (proj2 (wif_lead_checked_before_decoding unit (Fixture.lib true) "L1")).
    simpl. right; left; reflexivity.
Defined.

(** C10. A broadcast request is made only when the answer, uppercased, is Y;
    after assembly, signatures and a verification that passed, any other
    answer ends the run with no transaction id and without a broadcast
    request. *)
Theorem broadcast_needs_confirmation :
  forall (key : Type) (lib : BitcoinLib key) (world : World) (k : key)
         (records : list recipient) (fee_rate : spec_float) (min_utxo : Z),
    (existsb is_post
       (calls (send_batch_transaction lib world k records fee_rate min_utxo))
     = true ->
     PyStr.upper (answer world) = "Y")
    /\ (forall d t tr,
          assemble_and_sign lib world k records fee_rate min_utxo
          = (Ok (d, t), tr) ->
          verify lib t = true ->
          PyStr.upper (answer world) <> "Y" ->
          send_batch_transaction lib world k records fee_rate min_utxo
          = (Ok None, (tr ++ [Prompt])%list)
          /\ no_broadcast
               (calls (send_batch_transaction lib world k records fee_rate
                         min_utxo))).
Proof.
  intros key lib world k records fee_rate min_utxo. split.
  - intros H. apply send_batch_post in H as (d & t & tr & _ & _ & Y). exact Y.
  - intros d t tr A V N.
    assert (E : send_batch_transaction lib world k records fee_rate min_utxo
                = (Ok None, (tr ++ [Prompt])%list)).
    { rewrite (send_batch_unfold _ _ _ _ _ _ _ _ _ A).
      unfold verify_and_broadcast. rewrite V. cbn [negb].
      apply String.eqb_neq in N. unfold bind, call. rewrite N. reflexivity. }
    split; [exact E|].
    destruct (existsb is_post
                (calls (send_batch_transaction lib world k records fee_rate
                          min_utxo))) eqn:P; [|exact P].
    apply send_batch_post in P as (_ & _ & _ & _ & _ & Y). contradiction.
Qed.

Lemma broadcast_needs_confirmation_witness :
  send_batch_transaction (Fixture.lib true)
    (Fixture.world [Fixture.coin 100000] "yes") tt
    [Fixture.pay 20000; Fixture.pay 30000] Fixture.ten 1000
  = (Ok None, ([HttpGet (UTXO_URL Fixture.funding_address)] ++ [Prompt])%list)
  /\ no_broadcast
       (calls (send_batch_transaction (Fixture.lib true)
                 (Fixture.world [Fixture.coin 100000] "yes") tt
                 [Fixture.pay 20000; Fixture.pay 30000] Fixture.ten 1000)).
Proof.
  refine (proj2 (broadcast_needs_confirmation unit (Fixture.lib true)
                   (Fixture.world [Fixture.coin 100000] "yes") tt
                   [Fixture.pay 20000; Fixture.pay 30000] Fixture.ten 1000)
            (mkDraft
               (mkTx [mkTxIn "aa" 0 100000 Fixture.funding_address]
                  [mkTxOut 20000 "bc1qpayee"; mkTxOut 30000 "bc1qpayee";
                   mkTxOut 48600 Fixture.funding_address])
               100000 50000 140 1400 48600)
            _ _ _ _ _).
  - vm_compute. reflexivity.
  - reflexivity.
  - vm_compute. discriminate.
Defined.

(** * Further properties of the code *)

(** ** Assembly in closed form *)

Lemma build_nonempty {key : Type} (lib : BitcoinLib key)
  (wallet_address : string) (utxos : list utxo) (records : list recipient)
  (fee_rate : spec_float) (min_utxo : Z) :
  utxos <> [] ->
  build lib wallet_address utxos records fee_rate min_utxo
  = bindR (add_inputs lib wallet_address utxos new_transaction 0)
      (fun ti =>
         bindR (add_outputs lib records (fst ti) 0)
           (fun to =>
              let size := Z.of_nat (String.length (raw_hex lib (fst to))) / 2 in
              bindR (compute_fee size fee_rate)
                (fun fee =>
                   let change := snd ti - snd to - fee in
                   bindR (if change >? 0
                          then add_output lib (fst to) change wallet_address
                          else Ok (fst to))
                     (fun t =>
                        Ok (mkDraft t (snd ti) (snd to) size fee change))))).
Proof.
  intros H. unfold build. destruct utxos as [|u rest]; [congruence|].
  destruct (add_inputs _ _ _ _ _) as [[t1 tin]|e]; [|reflexivity]. cbn [bindR fst snd].
  destruct (add_outputs _ _ _ _) as [[t2 tout]|e]; reflexivity.
Qed.

(** X1. The first entry of the provider's answer whose [vout] is no integer
    stops assembly: whatever the recipients and the fee rate no draft is
    returned, the error being the malformed-entry one when the library took
    every input before that entry (an input the library refuses raises
    first). *)
Theorem build_fails_on_malformed_vout :
  forall (key : Type) (lib : BitcoinLib key) (wallet_address : string)
         (before : list utxo) (u : utxo) (after : list utxo)
         (records : list recipient) (fee_rate : spec_float) (min_utxo : Z),
    forallb vout_is_int before = true ->
    vout_is_int u = false ->
    (forallb (input_accepted lib wallet_address) before = true ->
     build lib wallet_address (before ++ u :: after) records fee_rate min_utxo
     = Err MalformedUtxo)
    /\ (exists e,
          build lib wallet_address (before ++ u :: after) records fee_rate
            min_utxo = Err e
          /\ (e = MalformedUtxo \/ exists prev n, e = InputRejected prev n)).
Proof.
  intros key lib wallet_address before u after records fee_rate min_utxo Hv Hu.
  assert (Hne : (before ++ u :: after)%list <> [])
    by (destruct before; discriminate).
  rewrite (build_nonempty lib _ _ records fee_rate min_utxo Hne). split.
  - intros Ha. now rewrite (add_inputs_malformed lib _ _ _ after _ _ Hv Ha Hu).
  - destruct (add_inputs lib wallet_address (before ++ u :: after)
                new_transaction 0) as [[t1 tin]|e] eqn:E.
    + apply add_inputs_ok in E as (V & _).
      rewrite forallb_app in V. cbn [forallb] in V. rewrite Hu in V.
      rewrite andb_false_r in V. discriminate.
    + exists e. split; [reflexivity|]. now apply add_inputs_errors in E.
Qed.

Lemma build_fails_on_malformed_vout_witness :
  build Fixture.strict_lib Fixture.address_a
    ([mkUtxo Fixture.txid_a (JInt 0) 5000]
       ++ mkUtxo Fixture.txid_a JOther 7000 :: [])%list
    [mkRecipient Fixture.address_b 600] Fixture.one 1000
  = Err MalformedUtxo.
Proof.
  apply (proj1 (build_fails_on_malformed_vout unit Fixture.strict_lib
                  Fixture.address_a [mkUtxo Fixture.txid_a (JInt 0) 5000]
                  (mkUtxo Fixture.txid_a JOther 7000) []
                  [mkRecipient Fixture.address_b 600] Fixture.one 1000
                  eq_refl eq_refl)).
  reflexivity.
Defined.

(** An output index that does not fit 32 bits is refused by the library
    before the malformed entry behind it is looked at. *)
Example refused_input_raises_first :
  build Fixture.strict_lib Fixture.address_a
    [mkUtxo Fixture.txid_a (JInt (2 ^ 32)) 5000; mkUtxo Fixture.txid_a JOther 7000]
    [mkRecipient Fixture.address_b 600] Fixture.one 1000
  = Err (InputRejected Fixture.txid_a (2 ^ 32)).
Proof. reflexivity. Qed.

(** X2. With at least one entry and every input taken, the first recipient
    whose address does not start with [bc1q], reached with every output
    before it taken by the library, makes assembly fail with that address;
    no fee is computed and no draft returned. *)
Theorem build_fails_on_foreign_address :
  forall (key : Type) (lib : BitcoinLib key) (wallet_address : string)
         (utxos : list utxo) (before : list recipient) (r : recipient)
         (after : list recipient) (fee_rate : spec_float) (min_utxo : Z),
    utxos <> [] ->
    forallb vout_is_int utxos = true ->
    forallb (input_accepted lib wallet_address) utxos = true ->
    forallb is_p2wpkh before = true ->
    forallb (output_accepted lib) before = true ->
    is_p2wpkh r = false ->
    build lib wallet_address utxos (before ++ r :: after) fee_rate min_utxo
    = Err (UnsupportedOutputScript (rec_address r)).
Proof.
  intros key lib wallet_address utxos before r after fee_rate min_utxo
    Hne Hv Ha Hp Ho Hr.
  rewrite (build_nonempty lib _ _ _ fee_rate min_utxo Hne).
  rewrite (add_inputs_closed lib _ _ _ _ Hv Ha). cbn [bindR fst].
  now rewrite (add_outputs_foreign lib _ _ after _ _ Hp Ho Hr).
Qed.

Lemma build_fails_on_foreign_address_witness :
  build Fixture.strict_lib Fixture.address_a
    [mkUtxo Fixture.txid_a (JInt 0) 5000]
    ([mkRecipient Fixture.address_b 600]
       ++ mkRecipient "1BvBMSEYstWetqTFn5Au4m4GFg7xJaNVN2" 700
       :: [mkRecipient "3J98t1WpEZ73CNmQviecrnyiWrnqRhWNLy" 800])%list
    Fixture.one 1000
  = Err (UnsupportedOutputScript "1BvBMSEYstWetqTFn5Au4m4GFg7xJaNVN2").
Proof.
  apply (build_fails_on_foreign_address unit Fixture.strict_lib
           Fixture.address_a [mkUtxo Fixture.txid_a (JInt 0) 5000]
           [mkRecipient Fixture.address_b 600]
           (mkRecipient "1BvBMSEYstWetqTFn5Au4m4GFg7xJaNVN2" 700)
           [mkRecipient "3J98t1WpEZ73CNmQviecrnyiWrnqRhWNLy" 800]
           Fixture.one 1000).
  - discriminate.
  - reflexivity.
  - reflexivity.
  - reflexivity.
  - reflexivity.
  - reflexivity.
Defined.

(** X3. Assembly returns a draft whenever there is at least one entry, every
    [vout] is an integer, every recipient address starts with [bc1q], the
    library takes every input, every recipient output and, when the change
    is positive, the change output, and the fee converts.  The draft has one
    input per entry and one output per recipient, in order, then the change
    output if the change is positive; the fee is taken on the size measured
    before the change output is added. *)
Theorem build_returns_draft_when :
  forall (key : Type) (lib : BitcoinLib key) (wallet_address : string)
         (utxos : list utxo) (records : list recipient)
         (fee_rate : spec_float) (min_utxo f : Z),
    utxos <> [] ->
    forallb vout_is_int utxos = true ->
    forallb (input_accepted lib wallet_address) utxos = true ->
    forallb is_p2wpkh records = true ->
    forallb (output_accepted lib) records = true ->
    compute_fee (unsigned_size lib wallet_address utxos records) fee_rate = Ok f ->
    ((utxo_total utxos - recipients_total records - f >? 0) = true ->
     accepts_output lib (utxo_total utxos - recipients_total records - f)
       wallet_address = true) ->
    build lib wallet_address utxos records fee_rate min_utxo
    = Ok (mkDraft
            (mkTx (map (input_of wallet_address) utxos)
               (map payout records
                  ++ (if utxo_total utxos - recipients_total records - f >? 0
                      then [mkTxOut (utxo_total utxos - recipients_total records - f)
                              wallet_address]
                      else []))%list)
            (utxo_total utxos) (recipients_total records)
            (unsigned_size lib wallet_address utxos records) f
            (utxo_total utxos - recipients_total records - f)).
Proof.
  intros key lib wallet_address utxos records fee_rate min_utxo f
    Hne Hv Ha Hp Ho Hf Hc.
  rewrite (build_nonempty lib _ _ _ fee_rate min_utxo Hne).
  rewrite (add_inputs_closed lib _ _ _ _ Hv Ha). cbn [bindR fst snd].
  rewrite (add_outputs_closed lib _ _ _ Hp Ho).
  cbn [bindR fst snd new_transaction inputs outputs app].
  unfold unsigned_size in Hf. rewrite !Z.add_0_l. cbv zeta. rewrite Hf.
  cbn [bindR]. unfold unsigned_size.
  destruct (utxo_total utxos - recipients_total records - f >? 0) eqn:C.
  - unfold add_output. rewrite (Hc eq_refl). reflexivity.
  - cbn [bindR]. now rewrite app_nil_r.
Qed.

Lemma build_returns_draft_when_witness :
  build Fixture.strict_lib Fixture.address_a
    [mkUtxo Fixture.txid_a (JInt 1) 100000]
    [mkRecipient Fixture.address_b 20000; mkRecipient Fixture.address_b 30000]
    Fixture.ten 1000
  = Ok (mkDraft
          (mkTx [mkTxIn Fixture.txid_a 1 100000 Fixture.address_a]
             [mkTxOut 20000 Fixture.address_b; mkTxOut 30000 Fixture.address_b;
              mkTxOut 48600 Fixture.address_a])
          100000 50000 140 1400 48600).
Proof.
  apply (build_returns_draft_when unit Fixture.strict_lib Fixture.address_a
           [mkUtxo Fixture.txid_a (JInt 1) 100000]
           [mkRecipient Fixture.address_b 20000;
            mkRecipient Fixture.address_b 30000]
           Fixture.ten 1000 1400).
  - discriminate.
  - reflexivity.
  - reflexivity.
  - reflexivity.
  - reflexivity.
  - vm_compute. reflexivity.
  - intros _. reflexivity.
Defined.

(** X4. A draft is returned only when there was at least one entry, every
    [vout] was an integer and every recipient address started with [bc1q];
    its fee is the one computed for the size of the serialisation without
    change output, which is the size the draft records. *)
Theorem build_draft_only_when :
  forall (key : Type) (lib : BitcoinLib key) (wallet_address : string)
         (utxos : list utxo) (records : list recipient)
         (fee_rate : spec_float) (min_utxo : Z) (d : draft),
    build lib wallet_address utxos records fee_rate min_utxo = Ok d ->
    utxos <> []
    /\ forallb vout_is_int utxos = true
    /\ forallb is_p2wpkh records = true
    /\ tx_size d = unsigned_size lib wallet_address utxos records
    /\ compute_fee (unsigned_size lib wallet_address utxos records) fee_rate
       = Ok (fee d)
    /\ inputs (tx d) = map (input_of wallet_address) utxos.
Proof.
  intros key lib wallet_address utxos records fee_rate min_utxo d H.
  apply build_ok in H
    as (Hne & Hv & _ & Hp & _ & Hs & Hf & _ & _ & _ & Ht & _).
  rewrite Ht, <- Hs. cbn [inputs]. auto 10.
Qed.

Lemma build_draft_only_when_witness :
  [Fixture.coin 2110] <> []
  /\ forallb vout_is_int [Fixture.coin 2110] = true
  /\ forallb is_p2wpkh [Fixture.pay 2000] = true
  /\ 109 = unsigned_size (Fixture.lib true) Fixture.funding_address
             [Fixture.coin 2110] [Fixture.pay 2000]
  /\ compute_fee (unsigned_size (Fixture.lib true) Fixture.funding_address
                    [Fixture.coin 2110] [Fixture.pay 2000]) Fixture.one
     = Ok 109
  /\ [mkTxIn "aa" 0 2110 Fixture.funding_address]
     = map (input_of Fixture.funding_address) [Fixture.coin 2110].
Proof.
  assert (H : build (Fixture.lib true) Fixture.funding_address
                [Fixture.coin 2110] [Fixture.pay 2000] Fixture.one 1000
              = Ok (mkDraft
                      (mkTx [mkTxIn "aa" 0 2110 Fixture.funding_address]
                         [mkTxOut 2000 "bc1qpayee";
                          mkTxOut 1 Fixture.funding_address])
                      2110 2000 109 109 1))
    by (vm_compute; reflexivity).
  exact (build_draft_only_when _ _ _ _ _ _ _ _ H).
Defined.

(** X5. When the change is not negative a returned draft conserves value:
    its inputs carry exactly its outputs, change output included, plus the
    fee. *)
Theorem funded_draft_conserves_value :
  forall (key : Type) (lib : BitcoinLib key) (wallet_address : string)
         (utxos : list utxo) (records : list recipient)
         (fee_rate : spec_float) (min_utxo : Z) (d : draft),
    build lib wallet_address utxos records fee_rate min_utxo = Ok d ->
    0 <= change d ->
    sum_inputs (tx d) = sum_outputs (tx d) + fee d.
Proof.
  intros key lib wallet_address utxos records fee_rate min_utxo d H Hc.
  apply build_balance in H. lia.
Qed.

Lemma funded_draft_conserves_value_witness :
  sum_inputs (mkTx [mkTxIn "aa" 0 100000 Fixture.funding_address]
                [mkTxOut 20000 "bc1qpayee"; mkTxOut 30000 "bc1qpayee";
                 mkTxOut 48600 Fixture.funding_address])
  = sum_outputs (mkTx [mkTxIn "aa" 0 100000 Fixture.funding_address]
                   [mkTxOut 20000 "bc1qpayee"; mkTxOut 30000 "bc1qpayee";
                    mkTxOut 48600 Fixture.funding_address])
    + 1400.
Proof.
  assert (H : build (Fixture.lib true) Fixture.funding_address
                [Fixture.coin 100000] [Fixture.pay 20000; Fixture.pay 30000]
                Fixture.ten 1000
              = Ok (mkDraft
                      (mkTx [mkTxIn "aa" 0 100000 Fixture.funding_address]
                         [mkTxOut 20000 "bc1qpayee"; mkTxOut 30000 "bc1qpayee";
                          mkTxOut 48600 Fixture.funding_address])
                      100000 50000 140 1400 48600))
    by (vm_compute; reflexivity).
  refine (funded_draft_conserves_value _ _ _ _ _ _ _ _ H _).
  vm_compute. discriminate.
Defined.

(** ** The fee: sign and conversion failures *)

Lemma int_of_float_nonneg (x : spec_float) (n : Z) :
  nonneg_or_nan x -> PyNum.int_of_float x = inr n -> 0 <= n.
Proof.
  destruct x as [s|s| |s m e]; simpl; intros Hs H; try discriminate.
  - injection H as <-. lia.
  - subst s. injection H as <-. cbn [cond_Zopp].
    apply Z.shiftl_nonneg. lia.
Qed.

Lemma int_of_float_mul_zero (x : spec_float) (s : bool) (n : Z) :
  PyNum.int_of_float (PyNum.float_mul x (S754_zero s)) = inr n -> n = 0.
Proof.
  destruct x as [sx|sx| |sx mx ex]; simpl; intros H; try discriminate;
    now injection H as <-.
Qed.

Lemma float_mul_non_finite (x y : spec_float) :
  PyNum.is_finite y = false -> PyNum.is_finite (PyNum.float_mul x y) = false.
Proof.
  destruct y as [sy|sy| |sy my ey]; try discriminate; intros _;
    destruct x as [sx|sx| |sx mx ex]; reflexivity.
Qed.

Lemma int_of_float_non_finite (x : spec_float) :
  PyNum.is_finite x = false -> exists c, PyNum.int_of_float x = inl c.
Proof. destruct x; try discriminate; simpl; eauto. Qed.

Lemma compute_fee_non_finite (size : Z) (fee_rate : spec_float) :
  PyNum.is_finite fee_rate = false ->
  exists c, compute_fee size fee_rate = Err (FeeConversion c).
Proof.
  intros H. unfold compute_fee, PyNum.int_mul_float.
  destruct (PyNum.float_of_int size) as [c|x]; [eauto|].
  destruct (int_of_float_non_finite _ (float_mul_non_finite x _ H)) as (c & ->).
  eauto.
Qed.

(** X6. With a positive fee rate the fee of a returned draft is never
    negative, so the change never exceeds what the inputs carry beyond the
    payments; with a fee rate of zero the fee is zero. *)
Theorem fee_sign_follows_rate :
  forall (key : Type) (lib : BitcoinLib key) (wallet_address : string)
         (utxos : list utxo) (records : list recipient)
         (fee_rate : spec_float) (min_utxo : Z) (d : draft),
    build lib wallet_address utxos records fee_rate min_utxo = Ok d ->
    (PyNum.is_positive fee_rate = true ->
     0 <= fee d /\ change d <= utxo_total utxos - recipients_total records)
    /\ (forall s, fee_rate = S754_zero s -> fee d = 0).
Proof.
  intros key lib wallet_address utxos records fee_rate min_utxo d H.
  pose proof (build_size _ _ _ _ _ _ _ _ H) as Hs.
  apply build_inv in H as (_ & _ & _ & Hti & Hto & Hf & Hc).
  unfold compute_fee, PyNum.int_mul_float in Hf.
  destruct (PyNum.float_of_int (tx_size d)) as [c|x] eqn:Ex; [discriminate|].
  destruct (PyNum.int_of_float (PyNum.float_mul x fee_rate)) as [c|n] eqn:En;
    [discriminate|].
  injection Hf as Hf. subst n. split.
  - intros Hr.
    assert (0 <= fee d).
    { apply (int_of_float_nonneg _ _ (float_mul_nonneg x fee_rate
               (float_of_int_nonneg _ _ Hs Ex) Hr) En). }
    split; lia.
  - intros s ->. now apply int_of_float_mul_zero in En.
Qed.

Lemma fee_sign_follows_rate_witness :
  (PyNum.is_positive Fixture.rate_55_109 = true ->
   0 <= 55 /\ 79945 <= utxo_total [Fixture.coin 100000]
                       - recipients_total [Fixture.pay 20000])
  /\ (forall s, Fixture.rate_55_109 = S754_zero s -> 55 = 0).
Proof.
  assert (H : build (Fixture.lib true) Fixture.funding_address
                [Fixture.coin 100000] [Fixture.pay 20000]
                Fixture.rate_55_109 1000
              = Ok (mkDraft
                      (mkTx [mkTxIn "aa" 0 100000 Fixture.funding_address]
                         [mkTxOut 20000 "bc1qpayee";
                          mkTxOut 79945 Fixture.funding_address])
                      100000 20000 109 55 79945))
    by (vm_compute; reflexivity).
  exact (fee_sign_follows_rate _ _ _ _ _ _ _ _ H).
Defined.

(** X7. A fee rate that is no finite number (nan or an infinity) never gives
    a draft: when the entries and the recipients pass the program's tests and
    the library takes every input and every recipient output, assembly fails
    on the fee conversion of l.198. *)
Theorem non_finite_rate_never_builds :
  forall (key : Type) (lib : BitcoinLib key) (wallet_address : string)
         (utxos : list utxo) (records : list recipient)
         (fee_rate : spec_float) (min_utxo : Z),
    PyNum.is_finite fee_rate = false ->
    (exists e, build lib wallet_address utxos records fee_rate min_utxo = Err e)
    /\ (utxos <> [] ->
        forallb vout_is_int utxos = true ->
        forallb (input_accepted lib wallet_address) utxos = true ->
        forallb is_p2wpkh records = true ->
        forallb (output_accepted lib) records = true ->
        exists c,
          build lib wallet_address utxos records fee_rate min_utxo
          = Err (FeeConversion c)).
Proof.
  intros key lib wallet_address utxos records fee_rate min_utxo Hr. split.
  - destruct (build lib wallet_address utxos records fee_rate min_utxo)
      as [d|e] eqn:B; [|eauto].
    apply build_inv in B as (_ & _ & _ & _ & _ & Hf & _).
    destruct (compute_fee_non_finite (tx_size d) fee_rate Hr) as (c & Hc).
    congruence.
  - intros Hne Hv Ha Hp Ho.
    rewrite (build_nonempty lib _ _ _ fee_rate min_utxo Hne).
    rewrite (add_inputs_closed lib _ _ _ _ Hv Ha). cbn [bindR fst snd].
    rewrite (add_outputs_closed lib _ _ _ Hp Ho). cbn [bindR fst snd]. cbv zeta.
    match goal with
    | |- context [compute_fee ?size fee_rate] =>
        destruct (compute_fee_non_finite size fee_rate Hr) as (c & ->)
    end.
    cbn [bindR]. eauto.
Qed.

Lemma non_finite_rate_never_builds_witness :
  (exists e, build Fixture.strict_lib Fixture.address_a
               [mkUtxo Fixture.txid_a (JInt 0) 100000]
               [mkRecipient Fixture.address_b 20000] S754_nan 1000 = Err e)
  /\ ([mkUtxo Fixture.txid_a (JInt 0) 100000] <> [] ->
      forallb vout_is_int [mkUtxo Fixture.txid_a (JInt 0) 100000] = true ->
      forallb (input_accepted Fixture.strict_lib Fixture.address_a)
        [mkUtxo Fixture.txid_a (JInt 0) 100000] = true ->
      forallb is_p2wpkh [mkRecipient Fixture.address_b 20000] = true ->
      forallb (output_accepted Fixture.strict_lib)
        [mkRecipient Fixture.address_b 20000] = true ->
      exists c,
        build Fixture.strict_lib Fixture.address_a
          [mkUtxo Fixture.txid_a (JInt 0) 100000]
          [mkRecipient Fixture.address_b 20000] S754_nan 1000
        = Err (FeeConversion c)).
Proof.
  apply (non_finite_rate_never_builds unit Fixture.strict_lib). reflexivity.
Defined.

(** With a rate that is no number the run of the stand-in ends on the fee
    conversion. *)
Example nan_rate_fails_on_conversion :
  build Fixture.strict_lib Fixture.address_a
    [mkUtxo Fixture.txid_a (JInt 0) 100000]
    [mkRecipient Fixture.address_b 20000] S754_nan 1000
  = Err (FeeConversion PyNum.ValueError).
Proof. reflexivity. Qed.

(** ** The run of [send_batch_transaction]: requests and results *)

Section MoreRunFacts.

Context {key : Type} (lib : BitcoinLib key) (world : World).

Lemma send_batch_assemble_err (k : key) (records : list recipient)
  (fee_rate : spec_float) (min_utxo : Z) (e : error) (tr : list event) :
  assemble_and_sign lib world k records fee_rate min_utxo = (Err e, tr) ->
  send_batch_transaction lib world k records fee_rate min_utxo = (Err e, tr).
Proof. intros H. unfold send_batch_transaction, bind. now rewrite H. Qed.

Lemma verify_and_broadcast_calls (t : Transaction) :
  calls (verify_and_broadcast lib world t) = [] \/
  calls (verify_and_broadcast lib world t) = [Prompt] \/
  calls (verify_and_broadcast lib world t)
  = [Prompt; HttpPost BROADCAST_URL (raw_hex lib t)].
Proof.
  unfold verify_and_broadcast.
  destruct (verify lib t); [|now left]. cbn [negb]. right.
  unfold bind, call.
  destruct (PyStr.upper (answer world) =? "Y")%string; [|now left]. right.
  cbn [negb].
  destruct (http_post world _ _) as [[status_code text]|]; [|reflexivity].
  destruct (status_code =? 200); reflexivity.
Qed.

(** What a confirmed broadcast returns. *)
Lemma verify_and_broadcast_confirmed (t : Transaction) :
  verify lib t = true ->
  PyStr.upper (answer world) = "Y" ->
  verify_and_broadcast lib world t
  = (match http_post world BROADCAST_URL (raw_hex lib t) with
     | Some (status_code, text) =>
         if status_code =? 200 then Ok (Some text) else Err (BroadcastFailed text)
     | None => Err RequestFailed
     end,
     [Prompt; HttpPost BROADCAST_URL (raw_hex lib t)]).
Proof.
  intros V Y. unfold verify_and_broadcast. rewrite V, Y. cbn [negb].
  rewrite String.eqb_refl. unfold bind, call. cbn [negb].
  destruct (http_post world _ _) as [[status_code text]|]; [|reflexivity].
  destruct (status_code =? 200); reflexivity.
Qed.

Lemma verify_and_broadcast_some (t : Transaction) (id : string) :
  outcome (verify_and_broadcast lib world t) = Ok (Some id) ->
  verify lib t = true /\ PyStr.upper (answer world) = "Y" /\
  http_post world BROADCAST_URL (raw_hex lib t) = Some (200, id).
Proof.
  unfold verify_and_broadcast.
  destruct (verify lib t); [|discriminate]. cbn [negb].
  unfold bind, call.
  destruct (String.eqb_spec (PyStr.upper (answer world)) "Y") as [Y|];
    [|discriminate].
  cbn [negb].
  destruct (http_post world _ _) as [[status_code text]|]; [|discriminate].
  destruct (Z.eqb_spec status_code 200) as [->|]; [|discriminate].
  cbn. intros H. injection H as ->. auto.
Qed.

Lemma verify_and_broadcast_none (t : Transaction) :
  outcome (verify_and_broadcast lib world t) = Ok None ->
  verify lib t = true /\ PyStr.upper (answer world) <> "Y" /\
  calls (verify_and_broadcast lib world t) = [Prompt].
Proof.
  unfold verify_and_broadcast.
  destruct (verify lib t); [|discriminate]. cbn [negb].
  unfold bind, call.
  destruct (String.eqb_spec (PyStr.upper (answer world)) "Y") as [Y|N];
    cbn [negb].
  - destruct (http_post world _ _) as [[status_code text]|]; [|discriminate].
    destruct (status_code =? 200); discriminate.
  - auto.
Qed.

Lemma verify_and_broadcast_errors (t : Transaction) (e : error) :
  outcome (verify_and_broadcast lib world t) = Err e ->
  e = VerificationFailure \/ e = RequestFailed \/ exists text, e = BroadcastFailed text.
Proof.
  unfold verify_and_broadcast.
  destruct (verify lib t); [|intros H; injection H as <-; auto]. cbn [negb].
  unfold bind, call.
  destruct (PyStr.upper (answer world) =? "Y")%string; cbn [negb]; [|discriminate].
  destruct (http_post world _ _) as [[status_code text]|];
    [|intros H; injection H as <-; auto].
  destruct (status_code =? 200); [discriminate|].
  intros H; injection H as <-. eauto.
Qed.

Lemma sign_from_errors (k : key) (utxos : list utxo) :
  forall i t e,
    sign_from lib k i utxos t = Err e ->
    exists j, e = SigningFailure j /\ (i <= j < i + List.length utxos)%nat.
Proof.
  induction utxos as [|u rest IH]; intros i t e H; simpl in H; [discriminate|].
  destruct (sign lib t k i) as [t'|].
  - apply IH in H as (j & -> & Hj). exists j. simpl. split; [reflexivity|lia].
  - injection H as <-. exists i. simpl. split; [reflexivity|lia].
Qed.

End MoreRunFacts.

(** X8. When the address derived from the key does not start with [bc1q],
    the run fails at once: the provider is not asked anything. *)
Theorem foreign_wallet_address_makes_no_request :
  forall (key : Type) (lib : BitcoinLib key) (world : World) (k : key)
         (records : list recipient) (fee_rate : spec_float) (min_utxo : Z),
    PyStr.startswith (address_of lib k) P2WPKH_PREFIX = false ->
    send_batch_transaction lib world k records fee_rate min_utxo
    = (Err UnexpectedAddressType, []).
Proof.
  intros key lib world k records fee_rate min_utxo H.
  apply send_batch_assemble_err. unfold assemble_and_sign. now rewrite H.
Qed.

Lemma foreign_wallet_address_makes_no_request_witness :
  send_batch_transaction
    (mkLib unit (fun _ => Some tt) (fun _ => "1LegacyAddress")
       (fun _ => "00") (fun t _ _ => Some t) (fun _ => true)
       (fun _ _ _ _ => true) (fun _ _ => true))
    (Fixture.world [Fixture.coin 100000] "Y") tt [Fixture.pay 20000]
    Fixture.ten 1000
  = (Err UnexpectedAddressType, []).
Proof.
  apply (foreign_wallet_address_makes_no_request unit
           (mkLib unit (fun _ => Some tt) (fun _ => "1LegacyAddress")
              (fun _ => "00") (fun t _ _ => Some t) (fun _ => true)
              (fun _ _ _ _ => true) (fun _ _ => true))).
  reflexivity.
Defined.

(** X9. When the provider answers the fetch with a status other than 200,
    the run ends with that status as its error after the one request: no
    assembly, no prompt, no broadcast. *)
Theorem provider_status_stops_run :
  forall (key : Type) (lib : BitcoinLib key) (world : World) (k : key)
         (records : list recipient) (fee_rate : spec_float) (min_utxo : Z)
         (status_code : Z) (body : list utxo),
    PyStr.startswith (address_of lib k) P2WPKH_PREFIX = true ->
    http_get world (UTXO_URL (address_of lib k)) = Some (status_code, body) ->
    status_code <> 200 ->
    send_batch_transaction lib world k records fee_rate min_utxo
    = (Err (ProviderError status_code), [HttpGet (UTXO_URL (address_of lib k))]).
Proof.
  intros key lib world k records fee_rate min_utxo status_code body Ha Hg Hs.
  apply send_batch_assemble_err.
  unfold assemble_and_sign, get_utxos_from_api. rewrite Ha, Hg. cbn [negb].
  apply Z.eqb_neq in Hs. rewrite Hs. reflexivity.
Qed.

Lemma provider_status_stops_run_witness :
  send_batch_transaction (Fixture.lib true)
    (mkWorld (fun _ => Some (404, [Fixture.coin 100000]))
       (fun _ _ => Some (200, "txid")) "Y")
    tt [Fixture.pay 20000] Fixture.ten 1000
  = (Err (ProviderError 404), [HttpGet (UTXO_URL Fixture.funding_address)]).
Proof.
  apply (provider_status_stops_run unit (Fixture.lib true)
           (mkWorld (fun _ => Some (404, [Fixture.coin 100000]))
              (fun _ _ => Some (200, "txid")) "Y")
           tt [Fixture.pay 20000] Fixture.ten 1000 404 [Fixture.coin 100000]).
  - reflexivity.
  - reflexivity.
  - discriminate.
Defined.

(** X10. The requests of a run come in one fixed order and at most once
    each: nothing; or the fetch; or the fetch and the prompt; or the fetch,
    the prompt and one broadcast to the broadcast address.  So a
    transaction is never posted twice and never before the prompt. *)
Theorem send_batch_requests_in_order :
  forall (key : Type) (lib : BitcoinLib key) (world : World) (k : key)
         (records : list recipient) (fee_rate : spec_float) (min_utxo : Z),
    let fetch := HttpGet (UTXO_URL (address_of lib k)) in
    let run := send_batch_transaction lib world k records fee_rate min_utxo in
    calls run = [] \/ calls run = [fetch] \/ calls run = [fetch; Prompt] \/
    exists body, calls run = [fetch; Prompt; HttpPost BROADCAST_URL body].
Proof.
  intros key lib world k records fee_rate min_utxo fetch run. subst fetch run.
  pose proof (assemble_calls lib world k records fee_rate min_utxo) as C.
  destruct (assemble_and_sign lib world k records fee_rate min_utxo)
    as [[[d t]|e] tr] eqn:A; cbn [calls snd] in C.
  - rewrite (send_batch_unfold _ _ _ _ _ _ _ _ _ A). cbn [calls snd].
    assert (tr = [HttpGet (UTXO_URL (address_of lib k))]) as ->.
    { destruct C as [->|C]; [|exact C]. exfalso.
      unfold assemble_and_sign in A.
      destruct (PyStr.startswith _ _); [|discriminate]. cbn [negb] in A.
      unfold get_utxos_from_api, bind, call, lift, ret, raise in A.
      destruct (http_get world _) as [[status_code found]|]; [|discriminate].
      destruct (status_code =? 200); [|discriminate].
      destruct (build _ _ _ _ _ _); [|discriminate].
      destruct (sign_from _ _ _ _ _); discriminate. }
    destruct (verify_and_broadcast_calls lib world t) as [-> | [-> | ->]];
      cbn [app]; eauto 6.
  - rewrite (send_batch_assemble_err _ _ _ _ _ _ _ _ A). cbn [calls snd].
    destruct C as [-> | ->]; auto.
Qed.

(** X11. A broadcast request is made exactly when the fetch, the assembly
    and all signatures succeeded, the verification passed, and the answer to
    the prompt is the single letter Y or y; a longer or padded answer
    declines. *)
Theorem broadcast_iff_confirmed :
  forall (key : Type) (lib : BitcoinLib key) (world : World) (k : key)
         (records : list recipient) (fee_rate : spec_float) (min_utxo : Z),
    existsb is_post
      (calls (send_batch_transaction lib world k records fee_rate min_utxo))
    = true
    <->
    exists d t tr,
      assemble_and_sign lib world k records fee_rate min_utxo = (Ok (d, t), tr)
      /\ verify lib t = true
      /\ (answer world = "Y" \/ answer world = "y").
Proof.
  intros key lib world k records fee_rate min_utxo. split.
  - intros H. apply send_batch_post in H as (d & t & tr & A & V & Y).
    apply upper_is_Y in Y. eauto 6.
  - intros (d & t & tr & A & V & Y). apply upper_is_Y in Y.
    rewrite (send_batch_unfold _ _ _ _ _ _ _ _ _ A). cbn [calls snd].
    rewrite (verify_and_broadcast_confirmed _ _ _ V Y). cbn [calls snd].
    rewrite existsb_app. simpl. apply orb_true_r.
Qed.

(** X12. After a verification that passed and a confirming answer, what is
    posted is the raw serialisation of the signed transaction, once, to the
    broadcast address; the run returns the provider's text when the status
    is 200 and fails with that text otherwise, without a second attempt. *)
Theorem confirmed_run_posts_signed_hex :
  forall (key : Type) (lib : BitcoinLib key) (world : World) (k : key)
         (records : list recipient) (fee_rate : spec_float) (min_utxo : Z)
         (d : draft) (t : Transaction) (tr : list event)
         (status_code : Z) (text : string),
    assemble_and_sign lib world k records fee_rate min_utxo = (Ok (d, t), tr) ->
    verify lib t = true ->
    PyStr.upper (answer world) = "Y" ->
    http_post world BROADCAST_URL (raw_hex lib t) = Some (status_code, text) ->
    send_batch_transaction lib world k records fee_rate min_utxo
    = (if status_code =? 200 then Ok (Some text) else Err (BroadcastFailed text),
       (tr ++ [Prompt; HttpPost BROADCAST_URL (raw_hex lib t)])%list).
Proof.
  intros key lib world k records fee_rate min_utxo d t tr status_code text
    A V Y P.
  rewrite (send_batch_unfold _ _ _ _ _ _ _ _ _ A).
  rewrite (verify_and_broadcast_confirmed _ _ _ V Y), P. reflexivity.
Qed.

Lemma confirmed_run_posts_signed_hex_witness :
  send_batch_transaction (Fixture.lib true)
    (mkWorld (fun _ => Some (200, [Fixture.coin 100000]))
       (fun _ _ => Some (400, "bad-txns-in-belowout")) "y")
    tt [Fixture.pay 20000] Fixture.ten 1000
  = (Err (BroadcastFailed "bad-txns-in-belowout"),
     ([HttpGet (UTXO_URL Fixture.funding_address)]
        ++ [Prompt; HttpPost BROADCAST_URL (Fixture.zeros 280)])%list).
Proof.
  refine (confirmed_run_posts_signed_hex unit (Fixture.lib true)
            (mkWorld (fun _ => Some (200, [Fixture.coin 100000]))
               (fun _ _ => Some (400, "bad-txns-in-belowout")) "y")
            tt [Fixture.pay 20000] Fixture.ten 1000
            (mkDraft
               (mkTx [mkTxIn "aa" 0 100000 Fixture.funding_address]
                  [mkTxOut 20000 "bc1qpayee";
                   mkTxOut 78910 Fixture.funding_address])
               100000 20000 109 1090 78910)
            (mkTx [mkTxIn "aa" 0 100000 Fixture.funding_address]
               [mkTxOut 20000 "bc1qpayee"; mkTxOut 78910 Fixture.funding_address])
            [HttpGet (UTXO_URL Fixture.funding_address)]
            400 "bad-txns-in-belowout" _ _ _ _).
  - vm_compute. reflexivity.
  - reflexivity.
  - reflexivity.
  - reflexivity.
Defined.

(** X13. A run returns a transaction id only if it posted the raw
    serialisation of a verified transaction and the provider answered 200
    with that very text; it returns no id without an error only when the
    answer declined, and then nothing was posted. *)
Theorem returned_id_comes_from_provider :
  forall (key : Type) (lib : BitcoinLib key) (world : World) (k : key)
         (records : list recipient) (fee_rate : spec_float) (min_utxo : Z),
    (forall id,
       outcome (send_batch_transaction lib world k records fee_rate min_utxo)
       = Ok (Some id) ->
       exists t,
         verify lib t = true
         /\ http_post world BROADCAST_URL (raw_hex lib t) = Some (200, id)
         /\ In (HttpPost BROADCAST_URL (raw_hex lib t))
              (calls (send_batch_transaction lib world k records fee_rate
                        min_utxo)))
    /\ (outcome (send_batch_transaction lib world k records fee_rate min_utxo)
        = Ok None ->
        PyStr.upper (answer world) <> "Y"
        /\ no_broadcast
             (calls (send_batch_transaction lib world k records fee_rate
                       min_utxo))).
Proof.
  intros key lib world k records fee_rate min_utxo.
  pose proof (assemble_no_broadcast lib world k records fee_rate min_utxo) as N.
  destruct (assemble_and_sign lib world k records fee_rate min_utxo)
    as [[[d t]|e] tr] eqn:A; cbn [calls snd] in N.
  - rewrite (send_batch_unfold _ _ _ _ _ _ _ _ _ A). cbn [outcome calls fst snd].
    split.
    + intros id H. apply verify_and_broadcast_some in H as (V & Y & P).
      exists t. repeat split; try assumption.
      rewrite (verify_and_broadcast_confirmed _ _ _ V Y). cbn [calls snd].
      apply in_or_app. right. simpl. auto.
    + intros H. apply verify_and_broadcast_none in H as (V & Y & C).
      split; [exact Y|]. rewrite C. apply no_broadcast_app. split; [exact N|].
      reflexivity.
  - rewrite (send_batch_assemble_err _ _ _ _ _ _ _ _ A). cbn [outcome fst].
    split; [intros id H; discriminate | discriminate].
Qed.

Lemma build_run_error {key : Type} (lib : BitcoinLib key)
  (wallet_address : string) (utxos : list utxo) (records : list recipient)
  (fee_rate : spec_float) (min_utxo : Z) (e : error) :
  build lib wallet_address utxos records fee_rate min_utxo = Err e ->
  run_error records e.
Proof.
  unfold build. destruct utxos as [|u rest].
  { intros H; injection H as <-. constructor. }
  destruct (add_inputs _ _ _ _ _) as [[t1 tin]|e1] eqn:E1; cbn [bindR].
  - destruct (add_outputs lib records t1 0) as [[t2 tout]|e2] eqn:E2;
      cbn [bindR].
    + unfold compute_fee.
      destruct (PyNum.int_mul_float _ _) as [c|p]; cbn [bindR].
      * intros H; injection H as <-. constructor.
      * destruct (PyNum.int_of_float p) as [c|n]; cbn [bindR];
          [intros H; injection H as <-; constructor|].
        destruct (_ >? 0); [|discriminate].
        unfold add_output. destruct (accepts_output lib _ _); [discriminate|].
        cbn [bindR]. intros H; injection H as <-. constructor.
    + intros H; injection H as <-.
      apply add_outputs_errors in E2 as [(r & Hin & Hr & ->)|(v & a & ->)];
        now constructor.
  - intros H; injection H as <-.
    apply add_inputs_errors in E1 as [->|(prev & n & ->)]; constructor.
Qed.

Lemma send_batch_run_error {key : Type} (lib : BitcoinLib key) (world : World)
  (k : key) (records : list recipient) (fee_rate : spec_float) (min_utxo : Z)
  (e : error) :
  outcome (send_batch_transaction lib world k records fee_rate min_utxo) = Err e ->
  run_error records e.
Proof.
  destruct (assemble_and_sign lib world k records fee_rate min_utxo)
    as [[[d t]|e'] tr] eqn:A.
  - rewrite (send_batch_unfold _ _ _ _ _ _ _ _ _ A). cbn [outcome fst].
    intros H. apply verify_and_broadcast_errors in H as [->|[->|(text & ->)]];
      constructor.
  - rewrite (send_batch_assemble_err _ _ _ _ _ _ _ _ A). cbn [outcome fst].
    intros H; injection H as ->.
    unfold assemble_and_sign in A.
    destruct (PyStr.startswith _ _); cbn [negb] in A;
      [|injection A as <- _; constructor].
    unfold get_utxos_from_api, bind, call, lift, ret, raise in A.
    destruct (http_get world _) as [[status_code found]|];
      [|injection A as <- _; constructor].
    destruct (status_code =? 200); [|injection A as <- _; constructor].
    destruct (build _ _ _ _ _ _) as [d|e1] eqn:B.
    + destruct (sign_from _ _ _ _ _) as [t|e2] eqn:S; [discriminate|].
      injection A as <- _.
      apply sign_from_errors in S as (j & -> & _). constructor.
    + injection A as <- _. now apply build_run_error in B.
Qed.

(** X14. When a signature is refused, the run ends with the index of the
    refused input, which is one of the transaction's inputs; the fetch is the
    only request made. *)
Theorem signing_failure_names_an_input :
  forall (key : Type) (lib : BitcoinLib key) (world : World) (k : key)
         (records : list recipient) (fee_rate : spec_float) (min_utxo : Z)
         (j : nat),
    outcome (send_batch_transaction lib world k records fee_rate min_utxo)
    = Err (SigningFailure j) ->
    exists found d,
      http_get world (UTXO_URL (address_of lib k)) = Some (200, found)
      /\ build lib (address_of lib k)
           (filter (fun u => value u >=? min_utxo) found) records fee_rate
           min_utxo = Ok d
      /\ (j < List.length (inputs (tx d)))%nat
      /\ calls (send_batch_transaction lib world k records fee_rate min_utxo)
         = [HttpGet (UTXO_URL (address_of lib k))].
Proof.
  intros key lib world k records fee_rate min_utxo j.
  destruct (assemble_and_sign lib world k records fee_rate min_utxo)
    as [[[d t]|e'] tr] eqn:A.
  - rewrite (send_batch_unfold _ _ _ _ _ _ _ _ _ A). cbn [outcome fst].
    intros H. apply verify_and_broadcast_errors in H as [H|[H|(text & H)]];
      discriminate.
  - rewrite (send_batch_assemble_err _ _ _ _ _ _ _ _ A). cbn [outcome calls fst snd].
    intros H; injection H as ->.
    unfold assemble_and_sign in A.
    destruct (PyStr.startswith _ _); cbn [negb] in A; [|discriminate].
    unfold get_utxos_from_api, bind, call, lift, ret, raise in A.
    destruct (http_get world _) as [[status_code found]|]; [|discriminate].
    destruct (Z.eqb_spec status_code 200) as [->|]; [|discriminate].
    destruct (build _ _ _ _ _ _) as [d|e1] eqn:B.
    + destruct (sign_from _ _ _ _ _) as [t|e2] eqn:S; [discriminate|].
      injection A as -> <-.
      apply sign_from_errors in S as (j' & E & Hj). injection E as ->.
      exists found, d.
      split; [reflexivity|]. split; [exact B|]. split; [|reflexivity].
      apply build_inv in B as (_ & Hi & _).
      apply (f_equal (@List.length _)) in Hi. rewrite !length_map in Hi.
      lia.
    + injection A as -> _.
      apply build_errors in B
        as [B|[B|[(a & B)|[(c & B)|[(p & n & B)|(v & a & B)]]]]]; discriminate.
Qed.

Lemma signing_failure_names_an_input_witness :
  exists found d,
    http_get (Fixture.world [Fixture.coin 5000; Fixture.coin 6000] "Y")
      (UTXO_URL Fixture.funding_address) = Some (200, found)
    /\ build
         (mkLib unit (fun _ => Some tt) (fun _ => Fixture.funding_address)
            (fun _ => "00")
            (fun t _ i => if Nat.eqb i 1 then None else Some t)
            (fun _ => true) (fun _ _ _ _ => true) (fun _ _ => true))
         Fixture.funding_address
         (filter (fun u => value u >=? 1000) found) [Fixture.pay 700]
         Fixture.one 1000 = Ok d
    /\ (1 < List.length (inputs (tx d)))%nat
    /\ calls (send_batch_transaction
                (mkLib unit (fun _ => Some tt) (fun _ => Fixture.funding_address)
                   (fun _ => "00")
                   (fun t _ i => if Nat.eqb i 1 then None else Some t)
                   (fun _ => true) (fun _ _ _ _ => true) (fun _ _ => true))
                (Fixture.world [Fixture.coin 5000; Fixture.coin 6000] "Y")
                tt [Fixture.pay 700] Fixture.one 1000)
       = [HttpGet (UTXO_URL Fixture.funding_address)].
Proof.
  apply (signing_failure_names_an_input unit
           (mkLib unit (fun _ => Some tt) (fun _ => Fixture.funding_address)
              (fun _ => "00")
              (fun t _ i => if Nat.eqb i 1 then None else Some t)
              (fun _ => true) (fun _ _ _ _ => true) (fun _ _ => true))
           (Fixture.world [Fixture.coin 5000; Fixture.coin 6000] "Y")
           tt [Fixture.pay 700] Fixture.one 1000 1%nat).
  vm_compute. reflexivity.
Defined.

(** X15. A wallet that [create_wallet_from_wif] returns comes from a secret
    with a K, L or 5 lead that the decoder accepted, after one decoder call;
    its address is the one derived from the key and starts with [bc1q], so
    the address test at the head of [send_batch_transaction] never fails for
    it. *)
Theorem created_wallet_is_p2wpkh :
  forall (key : Type) (lib : BitcoinLib key) (wif_key : string)
         (k : key) (address : string) (tr : list event),
    create_wallet_from_wif lib wif_key = (Ok (k, address), tr) ->
    wif_lead wif_key
    /\ Key lib wif_key = Some k
    /\ address = address_of lib k
    /\ PyStr.startswith address P2WPKH_PREFIX = true
    /\ tr = [KeyDecode wif_key]
    /\ (forall world records fee_rate min_utxo,
          outcome (send_batch_transaction lib world k records fee_rate min_utxo)
          <> Err UnexpectedAddressType).
Proof.
  intros key lib wif_key k address tr. unfold create_wallet_from_wif.
  destruct (PyStr.startswith_any wif_key ["K"; "L"; "5"]) eqn:L; [|discriminate].
  cbn [negb]. unfold decode_key, bind, call, ret, raise.
  destruct (Key lib wif_key) as [k'|]; [|discriminate]. cbn.
  destruct (PyStr.startswith (address_of lib k') P2WPKH_PREFIX) eqn:P;
    [|discriminate].
  cbn. intros H. injection H as -> <- <-.
  apply wif_lead_spec in L. repeat split; try assumption; try reflexivity.
  intros world records fee_rate min_utxo H.
  destruct (assemble_and_sign lib world k records fee_rate min_utxo)
    as [[[d t]|e'] tr] eqn:A.
  - rewrite (send_batch_unfold _ _ _ _ _ _ _ _ _ A) in H. cbn [outcome fst] in H.
    apply verify_and_broadcast_errors in H as [H|[H|(text & H)]]; discriminate.
  - rewrite (send_batch_assemble_err _ _ _ _ _ _ _ _ A) in H.
    cbn [outcome fst] in H. injection H as ->.
    unfold assemble_and_sign in A. rewrite P in A. cbn [negb] in A.
    unfold get_utxos_from_api, bind, call, lift, ret, raise in A.
    destruct (http_get world _) as [[status_code found]|]; [|discriminate].
    destruct (status_code =? 200); [|discriminate].
    destruct (build _ _ _ _ _ _) as [d|e1] eqn:B.
    + destruct (sign_from _ _ _ _ _) as [t|e2] eqn:S; [discriminate|].
      injection A as A _. apply sign_from_errors in S as (j & -> & _).
      discriminate.
    + injection A as A _. subst e1.
      apply build_errors in B
        as [B|[B|[(a & B)|[(c & B)|[(p & n & B)|(v & a & B)]]]]]; discriminate.
Qed.

Lemma created_wallet_is_p2wpkh_witness :
  wif_lead "L1"
  /\ Key (Fixture.lib true) "L1" = Some tt
  /\ Fixture.funding_address = address_of (Fixture.lib true) tt
  /\ PyStr.startswith Fixture.funding_address P2WPKH_PREFIX = true
  /\ [KeyDecode "L1"] = [KeyDecode "L1"]
  /\ (forall world records fee_rate min_utxo,
        outcome (send_batch_transaction (Fixture.lib true) world tt records
                   fee_rate min_utxo)
        <> Err UnexpectedAddressType).
Proof.
  apply (created_wallet_is_p2wpkh unit (Fixture.lib true) "L1" tt
           Fixture.funding_address [KeyDecode "L1"]).
  reflexivity.
Defined.

(** ** The sheet: which row is reported, and fractional amounts *)

Section MoreSheetFacts.

Variable int_of_text : string -> PyNum.conv_error + Z.

Lemma check_rows_split (before : list row) (r : row) (after : list row) :
  Forall (valid_row int_of_text) before ->
  forall idx,
    check_rows int_of_text idx (before ++ r :: after)%list
    = match check_row int_of_text r with
      | inl why => Err (InvalidRecipient (idx + Z.of_nat (List.length before)) why)
      | inr _ =>
          check_rows int_of_text (idx + Z.of_nat (List.length before) + 1) after
      end.
Proof.
  induction 1 as [|x xs Hx _ IH]; intros idx.
  - simpl. rewrite Z.add_0_r. reflexivity.
  - apply check_row_valid in Hx as (n & Hn).
    cbn [app check_rows]. rewrite Hn, IH.
    replace (idx + 1 + Z.of_nat (List.length xs))
      with (idx + Z.of_nat (List.length (x :: xs)))
      by (cbn [List.length]; lia).
    reflexivity.
Qed.

Lemma check_rows_err_inv (rs : list row) :
  forall idx e,
    check_rows int_of_text idx rs = Err e ->
    exists before r after why,
      rs = (before ++ r :: after)%list
      /\ Forall (valid_row int_of_text) before
      /\ check_row int_of_text r = inl why
      /\ e = InvalidRecipient (idx + Z.of_nat (List.length before)) why.
Proof.
  induction rs as [|x xs IH]; intros idx e H; simpl in H; [discriminate|].
  destruct (check_row int_of_text x) as [why|n] eqn:E.
  - injection H as <-. exists [], x, xs, why. simpl. rewrite Z.add_0_r. auto.
  - apply IH in H as (before & r & after & why & -> & Hb & Hr & ->).
    exists (x :: before), r, after, why. repeat split; try assumption.
    + constructor; [|assumption]. apply check_row_valid. eauto.
    + f_equal. cbn [List.length]. lia.
Qed.

Lemma read_excel_data_errors (astype_int : list cell -> option (list cell))
  (df : dataframe) (e : error) :
  read_excel_data int_of_text astype_int df = Err e ->
  e = MissingColumns \/ e = ColumnConversion \/
  (check_rows int_of_text 0 (rows df) = Err e /\
   exists i why, e = InvalidRecipient i why).
Proof.
  unfold read_excel_data.
  destruct (negb (has_column df "address") || negb (has_column df "amount"));
    [intros H; injection H as <-; auto|].
  destruct (check_rows int_of_text 0 (rows df)) as [[]|e'] eqn:C.
  - destruct (astype_int _); [discriminate|]. intros H; injection H as <-; auto.
  - intros H; injection H as <-. right; right. split; [reflexivity|].
    apply check_rows_err_inv in C as (b & r & a & why & _ & _ & _ & ->). eauto.
Qed.

Lemma set_amounts_addresses (P : string -> Prop) (rs : list row) :
  Forall (fun r => P (row_address r)) rs ->
  forall amounts, Forall (fun r => P (row_address r)) (set_amounts rs amounts).
Proof.
  unfold set_amounts.
  induction 1 as [|r rs Hr _ IH]; intros amounts; simpl; [constructor|].
  destruct amounts as [|c cs]; simpl; constructor; auto.
Qed.

Lemma read_excel_data_addresses (astype_int : list cell -> option (list cell))
  (df df' : dataframe) :
  read_excel_data int_of_text astype_int df = Ok df' ->
  Forall (fun r => PyStr.startswith (PyStr.strip (row_address r)) P2WPKH_PREFIX
                   = true) (rows df').
Proof.
  intros H.
  assert (V : is_ok (read_excel_data int_of_text astype_int df) = true)
    by now rewrite H.
  apply read_excel_data_ok in V as (_ & _ & V & _).
  unfold read_excel_data in H.
  destruct (negb (has_column df "address") || negb (has_column df "amount"));
    [discriminate|].
  destruct (check_rows int_of_text 0 (rows df)); [|discriminate].
  destruct (astype_int _) as [amounts|]; [|discriminate].
  injection H as <-. cbn [rows].
  apply (set_amounts_addresses
           (fun a => PyStr.startswith (PyStr.strip a) P2WPKH_PREFIX = true)).
  eapply Forall_impl; [|exact V]. intros r (Ha & _). exact Ha.
Qed.

Lemma prepare_recipients_inv (rs : list row) :
  forall recs,
    prepare_recipients int_of_text rs = Ok recs ->
    map rec_address recs = map (fun r => PyStr.strip (row_address r)) rs
    /\ map (fun r => @inr PyNum.conv_error Z (rec_amount r)) recs
       = map (fun r => py_int int_of_text (row_amount r)) rs
    /\ Forall (fun r => 0 < rec_amount r) recs.
Proof.
  induction rs as [|r rest IH]; intros recs H; simpl in H.
  - injection H as <-. simpl. auto.
  - destruct (py_int int_of_text (row_amount r)) as [c|n] eqn:E; [discriminate|].
    destruct (Z.leb_spec n 0); [discriminate|].
    destruct (prepare_recipients int_of_text rest) as [out|e]; [|discriminate].
    cbn [bindR] in H. injection H as <-.
    destruct (IH out eq_refl) as (Ha & Hn & Hp).
    simpl. rewrite Ha, Hn, E. repeat split. constructor; assumption.
Qed.

Lemma prepare_recipients_errors (rs : list row) (e : error) :
  prepare_recipients int_of_text rs = Err e ->
  (exists c, e = AmountConversion c) \/ (exists n, e = NonPositiveAmount n).
Proof.
  induction rs as [|r rest IH]; simpl; [discriminate|].
  destruct (py_int int_of_text (row_amount r)) as [c|n];
    [intros H; injection H as <-; eauto|].
  destruct (n <=? 0); [intros H; injection H as <-; eauto|].
  destruct (prepare_recipients int_of_text rest) as [out|e']; [discriminate|].
  cbn [bindR]. intros H; injection H as <-. now apply IH.
Qed.

Lemma float_amount_negative (m : positive) (e : Z) :
  Qfloor (PyNum.Q_of_float (S754_finite true m e)) < 0.
Proof.
  destruct e as [|p|p]; cbn [PyNum.Q_of_float cond_Zopp].
  - rewrite Qfloor_Z. simpl. lia.
  - rewrite Qfloor_Z. pose proof (Z.pow_pos_nonneg 2 (Zpos p)). lia.
  - unfold Qfloor. apply Z.div_lt_upper_bound; lia.
Qed.

End MoreSheetFacts.

(** X16. When both columns are there, the row [read_excel_data] reports is
    the first faulty one: every row before it is valid, and the reported
    index and reason are its own. *)
Theorem first_faulty_row_is_reported :
  forall (int_of_text : string -> PyNum.conv_error + Z)
         (astype_int : list cell -> option (list cell)) (df : dataframe)
         (i : Z) (why : recipient_fault),
    has_column df "address" = true ->
    has_column df "amount" = true ->
    (read_excel_data int_of_text astype_int df = Err (InvalidRecipient i why)
     <->
     exists before r after,
       rows df = (before ++ r :: after)%list
       /\ Forall (valid_row int_of_text) before
       /\ check_row int_of_text r = inl why
       /\ i = Z.of_nat (List.length before)).
Proof.
  intros int_of_text astype_int df i why Ha Hm. split.
  - intros H. apply read_excel_data_errors in H as [H|[H|(C & _)]];
      try discriminate.
    apply check_rows_err_inv in C as (b & r & a & w & E & Hb & Hr & Hi).
    injection Hi as -> ->. exists b, r, a. auto.
  - intros (b & r & a & E & Hb & Hr & ->).
    unfold read_excel_data. rewrite Ha, Hm, E. cbn [negb orb].
    rewrite (check_rows_split _ _ _ _ Hb), Hr. reflexivity.
Qed.

Lemma first_faulty_row_is_reported_witness :
  read_excel_data Fixture.int_of_text Fixture.astype_int
    (Fixture.sheet [mkRow "bc1qa" (CInt 600); mkRow "1Legacy" (CInt 700);
                    mkRow "bc1qc" (CInt 5)])
  = Err (InvalidRecipient 1 (NotSegwitAddress "1Legacy")).
Proof.
  apply (proj2 (first_faulty_row_is_reported Fixture.int_of_text
                  Fixture.astype_int
                  (Fixture.sheet [mkRow "bc1qa" (CInt 600);
                                  mkRow "1Legacy" (CInt 700);
                                  mkRow "bc1qc" (CInt 5)])
                  1 (NotSegwitAddress "1Legacy") eq_refl eq_refl)).
  exists [mkRow "bc1qa" (CInt 600)], (mkRow "1Legacy" (CInt 700)),
    [mkRow "bc1qc" (CInt 5)].
  split; [reflexivity|]. split; [|split; reflexivity].
  constructor; [|constructor].
  split; [reflexivity|]. exists 600. split; [reflexivity | lia].
Defined.

(** X17. An amount cell that holds a float is not refused for its fraction:
    it passes exactly when it is finite and its integer part (the floor of
    its value) is at least 546, and the amount taken is that integer part. *)
Theorem float_amount_is_truncated :
  forall (int_of_text : string -> PyNum.conv_error + Z) (x : spec_float) (n : Z),
    check_amount int_of_text (CFloat x) = inr n
    <->
    PyNum.is_finite x = true /\ n = Qfloor (PyNum.Q_of_float x) /\ 546 <= n.
Proof.
  intros int_of_text x n. unfold check_amount, py_int, DUST_LIMIT.
  destruct x as [s|s| |s m e]; cbn [PyNum.int_of_float PyNum.is_finite].
  - simpl. split; [discriminate|]. intros (_ & -> & H).
    change (Qfloor (PyNum.Q_of_float (S754_zero s))) with (0 / 1) in H.
    rewrite Z.div_1_r in H. lia.
  - split; [discriminate | intros (H & _); discriminate].
  - split; [discriminate | intros (H & _); discriminate].
  - destruct s.
    + pose proof (float_amount_negative m e) as Neg.
      pose proof (Z.shiftl_nonneg (Zpos m) e) as Sh.
      cbn [cond_Zopp].
      destruct (Z.leb_spec (- Z.shiftl (Zpos m) e) 0) as [_|Gt]; [|lia].
      split; [discriminate | intros (_ & -> & H); lia].
    + destruct (int_of_float_floor (S754_finite false m e)
                  (Z.shiftl (Zpos m) e) eq_refl eq_refl) as (_ & Fl).
      cbn [cond_Zopp]. rewrite <- Fl.
      destruct (Z.leb_spec (Z.shiftl (Zpos m) e) 0) as [Le|Gt];
        [|destruct (Z.ltb_spec (Z.shiftl (Zpos m) e) 546) as [Lt|Ge]].
      * split; [discriminate | intros (_ & -> & H); lia].
      * split; [discriminate | intros (_ & -> & H); lia].
      * split.
        -- intros H; injection H as <-. auto.
        -- intros (_ & -> & _). reflexivity.
Qed.

(** X18. The recipients [main] prepares mirror the rows one for one and in
    order: each address is the row's address stripped, each amount is
    [int(...)] of the row's amount, and each amount is positive; one row that
    does not convert or is not positive gives no list at all. *)
Theorem prepared_recipients_mirror_rows :
  forall (int_of_text : string -> PyNum.conv_error + Z) (rs : list row)
         (recs : list recipient),
    prepare_recipients int_of_text rs = Ok recs ->
    List.length recs = List.length rs
    /\ map rec_address recs = map (fun r => PyStr.strip (row_address r)) rs
    /\ map (fun r => @inr PyNum.conv_error Z (rec_amount r)) recs
       = map (fun r => py_int int_of_text (row_amount r)) rs
    /\ Forall (fun r => 0 < rec_amount r) recs.
Proof.
  intros int_of_text rs recs H.
  apply prepare_recipients_inv in H as (Ha & Hn & Hp).
  split; [|auto].
  apply (f_equal (@List.length _)) in Ha. now rewrite !length_map in Ha.
Qed.

Lemma prepared_recipients_mirror_rows_witness :
  List.length [mkRecipient "bc1qa" 600; mkRecipient "bc1qb" 700]
  = List.length [mkRow " bc1qa " (CInt 600); mkRow "bc1qb" (CInt 700)]
  /\ map rec_address [mkRecipient "bc1qa" 600; mkRecipient "bc1qb" 700]
     = map (fun r => PyStr.strip (row_address r))
         [mkRow " bc1qa " (CInt 600); mkRow "bc1qb" (CInt 700)]
  /\ map (fun r => @inr PyNum.conv_error Z (rec_amount r))
       [mkRecipient "bc1qa" 600; mkRecipient "bc1qb" 700]
     = map (fun r => py_int Fixture.int_of_text (row_amount r))
         [mkRow " bc1qa " (CInt 600); mkRow "bc1qb" (CInt 700)]
  /\ Forall (fun r => 0 < rec_amount r)
       [mkRecipient "bc1qa" 600; mkRecipient "bc1qb" 700].
Proof.
  apply (prepared_recipients_mirror_rows Fixture.int_of_text
           [mkRow " bc1qa " (CInt 600); mkRow "bc1qb" (CInt 700)]
           [mkRecipient "bc1qa" 600; mkRecipient "bc1qb" 700]).
  reflexivity.
Defined.

(** ** The whole program: order of the checks *)

Section MainFacts.

Variable int_of_text : string -> PyNum.conv_error + Z.
Variable astype_int : list cell -> option (list cell).
Context {key : Type} (lib : BitcoinLib key) (world : World).

Lemma create_wallet_calls (wif : string) :
  calls (create_wallet_from_wif lib wif) = [] \/
  calls (create_wallet_from_wif lib wif) = [KeyDecode wif].
Proof.
  unfold create_wallet_from_wif.
  destruct (PyStr.startswith_any wif ["K"; "L"; "5"]); [|now left]. right.
  cbn [negb]. unfold decode_key, bind, call, ret, raise.
  destruct (Key lib wif) as [k|]; [|reflexivity]. cbn.
  destruct (PyStr.startswith (address_of lib k) P2WPKH_PREFIX); reflexivity.
Qed.

Lemma create_wallet_errors (wif : string) (e : error) :
  outcome (create_wallet_from_wif lib wif) = Err e ->
  e = InvalidKeyFormat \/ e = InvalidKeyEncoding \/ e = UnexpectedAddressType.
Proof.
  unfold create_wallet_from_wif.
  destruct (PyStr.startswith_any wif ["K"; "L"; "5"]);
    [|intros H; injection H as <-; auto].
  cbn [negb]. unfold decode_key, bind, call, ret, raise.
  destruct (Key lib wif) as [k|]; [|intros H; injection H as <-; auto]. cbn.
  destruct (PyStr.startswith (address_of lib k) P2WPKH_PREFIX); cbn;
    [discriminate | intros H; injection H as <-; auto].
Qed.

Lemma create_wallet_ok_calls (wif : string) (p : key * string) (tr : list event) :
  create_wallet_from_wif lib wif = (Ok p, tr) -> tr = [KeyDecode wif].
Proof.
  unfold create_wallet_from_wif.
  destruct (PyStr.startswith_any wif ["K"; "L"; "5"]); [|discriminate].
  cbn [negb]. unfold decode_key, bind, call, ret, raise.
  destruct (Key lib wif) as [k|]; [|discriminate]. cbn.
  destruct (PyStr.startswith (address_of lib k) P2WPKH_PREFIX); cbn;
    [|discriminate].
  intros H. now injection H as _ <-.
Qed.

(** [main] step by step. *)
Lemma main_unfold (cfg : config) :
  main int_of_text astype_int lib world cfg
  = match create_wallet_from_wif lib (wif_key cfg) with
    | (Err e, tr) => (Err e, tr)
    | (Ok (k, _), tr) =>
        match read_excel_data int_of_text astype_int (excel cfg) with
        | Err e => (Err e, tr)
        | Ok df =>
            match prepare_recipients int_of_text (rows df) with
            | Err e => (Err e, tr)
            | Ok recipients =>
                (outcome (send_batch_transaction lib world k recipients
                            (fee_rate cfg) (min_utxo cfg)),
                 (tr ++ calls (send_batch_transaction lib world k recipients
                                 (fee_rate cfg) (min_utxo cfg)))%list)
            end
        end
    end.
Proof.
  unfold main, bind, lift.
  destruct (create_wallet_from_wif lib (wif_key cfg)) as [[[k a]|e] tr];
    [|reflexivity].
  destruct (read_excel_data _ _ _) as [df|e]; [|now rewrite app_nil_r].
  destruct (prepare_recipients _ _) as [recs|e]; [|now rewrite !app_nil_r].
  destruct (send_batch_transaction _ _ _ _ _ _) as [r tr']. reflexivity.
Qed.

End MainFacts.

(** X19. [main] checks the key, then the sheet, then the prepared amounts,
    and only then turns to the provider: a secret with a wrong lead ends the
    program before anything else; with a wallet created, a sheet that
    [read_excel_data] refuses, or rows that do not prepare, end it with that
    error after the decoder call alone; no refused sheet lets an HTTP request
    out. *)
Theorem main_validates_before_any_request :
  forall (int_of_text : string -> PyNum.conv_error + Z)
         (astype_int : list cell -> option (list cell))
         (key : Type) (lib : BitcoinLib key) (world : World) (cfg : config),
    (~ wif_lead (wif_key cfg) ->
     main int_of_text astype_int lib world cfg = (Err InvalidKeyFormat, []))
    /\ (forall k address tr e,
          create_wallet_from_wif lib (wif_key cfg) = (Ok (k, address), tr) ->
          read_excel_data int_of_text astype_int (excel cfg) = Err e ->
          main int_of_text astype_int lib world cfg
          = (Err e, [KeyDecode (wif_key cfg)]))
    /\ (forall k address tr df e,
          create_wallet_from_wif lib (wif_key cfg) = (Ok (k, address), tr) ->
          read_excel_data int_of_text astype_int (excel cfg) = Ok df ->
          prepare_recipients int_of_text (rows df) = Err e ->
          main int_of_text astype_int lib world cfg
          = (Err e, [KeyDecode (wif_key cfg)]))
    /\ (is_ok (read_excel_data int_of_text astype_int (excel cfg)) = false ->
        existsb is_http (calls (main int_of_text astype_int lib world cfg))
        = false
        /\ is_ok (outcome (main int_of_text astype_int lib world cfg)) = false).
Proof.
  intros int_of_text astype_int key lib world cfg.
  rewrite main_unfold. repeat split.
  - intros L. unfold create_wallet_from_wif.
    destruct (PyStr.startswith_any (wif_key cfg) ["K"; "L"; "5"]) eqn:E;
      [|reflexivity].
    apply wif_lead_spec in E. contradiction.
  - intros k address tr e W R. rewrite W, R.
    now rewrite (create_wallet_ok_calls _ _ _ _ W).
  - intros k address tr df e W R P. rewrite W, R, P.
    now rewrite (create_wallet_ok_calls _ _ _ _ W).
  - pose proof (create_wallet_calls lib (wif_key cfg)) as C.
    destruct (create_wallet_from_wif lib (wif_key cfg)) as [[[k a]|e] tr];
      cbn [calls snd] in C.
    + destruct (read_excel_data _ _ _); [discriminate|]. cbn [calls snd].
      destruct C as [-> | ->]; reflexivity.
    + cbn [calls snd]. destruct C as [-> | ->]; reflexivity.
  - destruct (create_wallet_from_wif lib (wif_key cfg)) as [[[k a]|e] tr];
      [|reflexivity].
    destruct (read_excel_data _ _ _); [discriminate | reflexivity].
Qed.

Lemma main_validates_before_any_request_witness :
  main Fixture.int_of_text Fixture.astype_int (Fixture.lib true)
    (Fixture.world [Fixture.coin 100000] "Y")
    (mkConfig "L1" (Fixture.sheet [mkRow "bc1qa" (CFloat S754_nan)])
       Fixture.ten 1000)
  = (Err (InvalidRecipient 0 (AmountFormat NotAnInteger)), [KeyDecode "L1"]).
Proof.
  refine (proj1 (proj2 (main_validates_before_any_request
                          Fixture.int_of_text Fixture.astype_int unit
                          (Fixture.lib true)
                          (Fixture.world [Fixture.coin 100000] "Y")
                          (mkConfig "L1"
                             (Fixture.sheet [mkRow "bc1qa" (CFloat S754_nan)])
                             Fixture.ten 1000)))
            tt Fixture.funding_address [KeyDecode "L1"] _ _ _).
  - reflexivity.
  - reflexivity.
Defined.

(** X20. In a run of [main] the address test on the recipients inside
    [send_batch_transaction] (l.190) never fails: every address that reaches
    it is the stripped address the sheet validation has already accepted. *)
Theorem main_never_meets_foreign_output :
  forall (int_of_text : string -> PyNum.conv_error + Z)
         (astype_int : list cell -> option (list cell))
         (key : Type) (lib : BitcoinLib key) (world : World) (cfg : config)
         (address : string),
    outcome (main int_of_text astype_int lib world cfg)
    <> Err (UnsupportedOutputScript address).
Proof.
  intros int_of_text astype_int key lib world cfg address.
  rewrite main_unfold.
  destruct (create_wallet_from_wif lib (wif_key cfg)) as [[[k a]|e] tr] eqn:W.
  - destruct (read_excel_data int_of_text astype_int (excel cfg))
      as [df|e] eqn:R.
    + destruct (prepare_recipients int_of_text (rows df)) as [recs|e] eqn:P.
      * cbn [outcome fst]. intros H.
        apply send_batch_run_error in H. inversion H as [| | | | | | |r Hin Hr Ha| | | |].
        apply read_excel_data_addresses in R.
        apply prepare_recipients_inv in P as (Pa & _ & _).
        unfold is_p2wpkh in Hr.
        apply (in_map rec_address) in Hin. rewrite Pa in Hin.
        apply in_map_iff in Hin as (x & Hx & Hin).
        rewrite Forall_forall in R. specialize (R x Hin). cbn beta in R.
        rewrite Hx in R. congruence.
      * cbn [outcome fst]. intros H. injection H as ->.
        apply prepare_recipients_errors in P as [(c & P)|(n & P)]; discriminate.
    + cbn [outcome fst]. intros H. injection H as ->.
      apply read_excel_data_errors in R as [R|[R|(_ & i & why & R)]];
        discriminate.
  - cbn [outcome fst]. intros H. injection H as ->.
    assert (O : outcome (create_wallet_from_wif lib (wif_key cfg))
                = Err (UnsupportedOutputScript address)) by now rewrite W.
    apply create_wallet_errors in O as [O|[O|O]]; discriminate.
Qed.
